(** * The sequential-simulator mixin of unified-planning

    A shallow embedding of
    [unified_planning/engines/mixins/sequential_simulator.py].

    The class [SequentialSimulatorMixin] is an abstract base: its public
    methods resolve the two calling conventions (an [Action] with
    parameters, or an [ActionInstance]) and then delegate to hook methods
    that a concrete engine overrides.  Python exceptions are modelled by an
    error monad, the hook methods by a type class, and the collaborators
    the file imports (states, expression nodes, types, the expression
    manager) by a second type class. *)

From Stdlib Require Import List String Bool Arith Lia.
Import ListNotations.
Local Open Scope string_scope.

(** ** Exceptions and the error monad *)

(** The exceptions the module raises or lets through.  [UPUsageError] keeps
    the argument tuple it is built with; [OtherException] stands for any
    exception class that the module neither raises nor catches.
    [UPUsageError] and [UPInvalidActionError] are taken as sibling classes
    of [unified_planning.exceptions], neither deriving from the other, so
    that [except UPInvalidActionError] catches the second only. *)
Inductive exn : Type :=
| UPUsageError (args : list string)
| UPInvalidActionError (msg : string)
| NotImplementedError
| AssertionError (msg : string)
| OtherException (class_name : string).

Inductive result (A : Type) : Type :=
| Return (value : A)
| Raise (e : exn).

Arguments Return {A} value.
Arguments Raise {A} e.

Definition bind {A B : Type} (c : result A) (k : A -> result B) : result B :=
  match c with
  | Return a => k a
  | Raise e => Raise e
  end.

Notation "x <- c ;; k" := (bind c (fun x => k))
  (at level 61, c at next level, right associativity).
Notation "' pat <- c ;; k" := (bind c (fun x => match x with pat => k end))
  (at level 61, pat pattern, c at next level, right associativity).

(** [try: c except UPInvalidActionError: h]. *)
Definition try_except_UPInvalidActionError {A : Type}
    (c : result A) (h : result A) : result A :=
  match c with
  | Raise (UPInvalidActionError _) => h
  | _ => c
  end.

(** What [except UPInvalidActionError] makes of an exception: the value
    [v] for that class, the exception itself for every other. *)
Definition recovered {A : Type} (e : exn) (v : A) : result A :=
  match e with
  | UPInvalidActionError _ => Return v
  | _ => Raise e
  end.

(** What [_is_applicable] makes of the outcome of the check of the
    conditions: [len(...) == 0] of a returned list, [False] for
    [UPInvalidActionError], every other exception as it is. *)
Definition no_unsatisfied {A : Type} (c : result (list A)) : result bool :=
  match c with
  | Return unsat => Return (List.length unsat =? 0)%nat
  | Raise e => recovered e false
  end.

Definition is_UPUsageError (e : exn) : bool :=
  match e with UPUsageError _ => true | _ => false end.

(** ** The collaborators *)

(** What the module uses of [up.model] and of the expression manager. None
    of it is defined in this file of the repository, so it is taken as an
    interface: [Expression] is the union type accepted from callers,
    [FNode] the expression nodes ([FNode_as_Expression]: an [FNode] is an
    [Expression]), [is_compatible t u] is [t.is_compatible(u)], and
    [auto_promote pb l] is
    [pb.environment.expression_manager.auto_promote(l)], which may raise. *)
Class Model : Type := {
  State : Type;
  up_Type : Type;
  FNode : Type;
  Expression : Type;
  up_Parameter : Type;
  Action : Type;
  ProblemKind : Type;
  AbstractProblem : Type;
  is_compatible : up_Type -> up_Type -> bool;
  fnode_type : FNode -> up_Type;
  parameter_type : up_Parameter -> up_Type;
  action_parameters : Action -> list up_Parameter;
  problem_kind : AbstractProblem -> ProblemKind;
  FNode_as_Expression : FNode -> Expression;
  auto_promote : AbstractProblem -> list Expression -> result (list FNode)
}.

Section Mixin.
Context {M : Model}.

(** [up.plans.ActionInstance], as far as the module reads it. *)
Record ActionInstance : Type := {
  action : Action;
  actual_parameters : list FNode
}.

(** [Union[Action, ActionInstance]] *)
Inductive action_or_action_instance : Type :=
| AnAction (act : Action)
| AnActionInstance (ai : ActionInstance).

(** [Optional[Union[Expression, Sequence[Expression]]]]: the three cases
    told apart by [parameters is None] and
    [isinstance(parameters, Sequence)]. *)
Inductive parameters_arg : Type :=
| NoParameters
| ParameterSequence (l : list Expression)
| SingleParameter (e : Expression).

(** The attributes of [up.engines.Engine] that the constructor reads. *)
Record Engine : Type := {
  name : string;
  skip_checks : bool;
  error_on_failed_checks : bool
}.

(** The simulator object: the engine attributes and [self._problem]. *)
Record Self : Type := {
  engine : Engine;
  _problem : AbstractProblem
}.

(** The concrete class [type(self)]: whether it derives from
    [up.engines.engine.Engine], its printed form, the class method
    [supports], and the methods that raise [NotImplementedError] in the
    mixin and are overridden by an engine. *)
Class SimulatorClass : Type := {
  issubclass_Engine : bool;
  type_self : string;
  supports : ProblemKind -> bool;
  _get_initial_state : Self -> result State;
  _get_unsatisfied_conditions :
    Self -> State -> Action -> list FNode -> bool -> result (list FNode);
  _apply : Self -> State -> Action -> list FNode -> result (option State);
  _apply_unsafe :
    Self -> State -> Action -> list FNode -> result (option State);
  _get_applicable_actions :
    Self -> State -> result (list (Action * list FNode));
  _get_unsatisfied_goals : Self -> State -> bool -> result (list FNode)
}.

(** The mixin on its own: every hook raises [NotImplementedError]. *)
Definition SequentialSimulatorMixin : SimulatorClass := {|
  issubclass_Engine := false;
  type_self := "<class 'unified_planning.engines.mixins.sequential_simulator.SequentialSimulatorMixin'>";
  supports := fun _ => false;
  _get_initial_state := fun _ => Raise NotImplementedError;
  _get_unsatisfied_conditions := fun _ _ _ _ _ => Raise NotImplementedError;
  _apply := fun _ _ _ _ => Raise NotImplementedError;
  _apply_unsafe := fun _ _ _ _ => Raise NotImplementedError;
  _get_applicable_actions := fun _ _ => Raise NotImplementedError;
  _get_unsatisfied_goals := fun _ _ _ => Raise NotImplementedError
|}.

Context {C : SimulatorClass}.

(** ** The constructor *)

Definition cannot_establish (e : Engine) : string :=
  "We cannot establish whether " ++ name e
    ++ " is able to handle this problem!".

(** [__init__]: the pair of the warnings emitted through [warn] and of the
    outcome.  The second assertion of the source,
    [isinstance(self, Engine)], follows from the first one and cannot
    fail after it. *)
Definition __init__ (e : Engine) (problem : AbstractProblem)
    : list string * result Self :=
  let self := {| engine := e; _problem := problem |} in
  if negb issubclass_Engine then
    ([], Raise (AssertionError
       "SequentialSimulatorMixin does not implement the up.engines.Engine class"))
  else if negb (skip_checks e) && negb (supports (problem_kind problem)) then
    let msg := cannot_establish e in
    if error_on_failed_checks e then ([], Raise (UPUsageError [msg]))
    else ([msg], Return self)
  else ([], Return self).

(** ** Grounding resolution *)

Definition ambiguous_grounding (method_name : string) : exn :=
  UPUsageError
    [type_self ++ "." ++ method_name
       ++ " method does not accept an ActionInstance and also the parameters."].

Definition incompatible_parameters (method_name : string) : exn :=
  UPUsageError
    ["The parameters given to the " ++ type_self ++ "." ++ method_name
       ++ " method are ";
     "not compatible with the given action's parameters."].

(** [not ap.type.is_compatible(p.type)] for a pair [(p, ap)] of the zip. *)
Definition not_compatible (p_ap : FNode * up_Parameter) : bool :=
  negb (is_compatible (parameter_type (snd p_ap)) (fnode_type (fst p_ap))).

(** The test made on the promoted parameters of an [Action]:
    [len(params) != len(act.parameters) or any(...)]. *)
Definition rejected (act : Action) (params : list FNode) : bool :=
  negb (List.length params =? List.length (action_parameters act))%nat
  || existsb not_compatible (combine params (action_parameters act)).

(** The three branches that compute [params] for an [Action]. *)
Definition promote_parameters (self : Self) (parameters : parameters_arg)
    : result (list FNode) :=
  match parameters with
  | NoParameters => Return []
  | ParameterSequence l => auto_promote (_problem self) l
  | SingleParameter e => auto_promote (_problem self) [e]
  end.

Definition _handle_parameters_polymorphism (self : Self)
    (action_or_instance : action_or_action_instance)
    (parameters : parameters_arg) (method_name : string)
    : result (Action * list FNode) :=
  match action_or_instance with
  | AnActionInstance ai =>
      match parameters with
      | NoParameters => Return (action ai, actual_parameters ai)
      | _ => Raise (ambiguous_grounding method_name)
      end
  | AnAction act =>
      params <- promote_parameters self parameters ;;
      if rejected act params then Raise (incompatible_parameters method_name)
      else Return (act, params)
  end.

(** ** The public methods and their default implementations *)

Definition get_initial_state (self : Self) : result State :=
  _get_initial_state self.

Definition get_unsatisfied_conditions (self : Self) (state : State)
    (action_or_instance : action_or_action_instance)
    (parameters : parameters_arg) (early_termination : bool)
    : result (list FNode) :=
  '(act, params) <- _handle_parameters_polymorphism self action_or_instance
                      parameters "get_unsatisfied_conditions" ;;
  _get_unsatisfied_conditions self state act params early_termination.

(** [_is_applicable] goes back through the public
    [get_unsatisfied_conditions], handing it the action and the tuple of
    nodes, which is a [Sequence]. *)
Definition _is_applicable (self : Self) (state : State) (act : Action)
    (parameters : list FNode) : result bool :=
  try_except_UPInvalidActionError
    (unsat <- get_unsatisfied_conditions self state (AnAction act)
                (ParameterSequence (map FNode_as_Expression parameters)) true ;;
     Return (List.length unsat =? 0)%nat)
    (Return false).

Definition is_applicable (self : Self) (state : State)
    (action_or_instance : action_or_action_instance)
    (parameters : parameters_arg) : result bool :=
  '(act, params) <- _handle_parameters_polymorphism self action_or_instance
                      parameters "is_applicable" ;;
  _is_applicable self state act params.

Definition apply (self : Self) (state : State)
    (action_or_instance : action_or_action_instance)
    (parameters : parameters_arg) : result (option State) :=
  '(act, params) <- _handle_parameters_polymorphism self action_or_instance
                      parameters "apply" ;;
  _apply self state act params.

Definition apply_unsafe (self : Self) (state : State)
    (action_or_instance : action_or_action_instance)
    (parameters : parameters_arg) : result (option State) :=
  '(act, params) <- _handle_parameters_polymorphism self action_or_instance
                      parameters "apply_unsafe" ;;
  _apply_unsafe self state act params.

Definition get_applicable_actions (self : Self) (state : State)
    : result (list (Action * list FNode)) :=
  _get_applicable_actions self state.

Definition is_sequential_simulator : bool := true.

Definition get_unsatisfied_goals (self : Self) (state : State)
    (early_termination : bool) : result (list FNode) :=
  _get_unsatisfied_goals self state early_termination.

Definition _is_goal (self : Self) (state : State) : result bool :=
  unsat <- get_unsatisfied_goals self state true ;;
  Return (List.length unsat =? 0)%nat.

Definition is_goal (self : Self) (state : State) : result bool :=
  _is_goal self state.

(** Modelled from the spec: the [_apply] of a concrete engine, which is not
    in this file of the repository (the mixin's own [_apply] raises
    [NotImplementedError]).  The spec: "first checks applicability [...];
    if not applicable, returns no successor (a None-like absence value, not
    an error).  If applicable, delegates to the unsafe path." *)
Definition spec_apply (self : Self) (state : State) (act : Action)
    (parameters : list FNode) : result (option State) :=
  applicable <- _is_applicable self state act parameters ;;
  if applicable then _apply_unsafe self state act parameters
  else Return None.

(** The engine class overrides [_apply] as the spec describes. *)
Definition apply_as_specified : Prop :=
  forall self state act parameters,
    _apply self state act parameters = spec_apply self state act parameters.

(** ** Well-formedness, as the collaborators guarantee it *)

(** What the data model of the spec says of a grounded action: "one
    concrete value per parameter, all values type-compatible with the
    schema's parameter types".  The module does not check it of an
    instance it is given. *)
Definition well_formed_instance (ai : ActionInstance) : Prop :=
  List.length (actual_parameters ai) = List.length (action_parameters (action ai))
  /\ (forall i n ap,
        nth_error (actual_parameters ai) i = Some n ->
        nth_error (action_parameters (action ai)) i = Some ap ->
        is_compatible (parameter_type ap) (fnode_type n) = true).

(** Promotion leaves expression nodes as they are. *)
Definition auto_promote_keeps_nodes (problem : AbstractProblem) : Prop :=
  forall nodes : list FNode,
    auto_promote problem (map FNode_as_Expression nodes) = Return nodes.

(** Two ways of passing the action give the same result, value or
    exception, in each of the four public methods that take an action. *)
Definition same_in_public_methods (self : Self) (state : State)
    (early_termination : bool)
    (x : action_or_action_instance) (p : parameters_arg)
    (x' : action_or_action_instance) (p' : parameters_arg) : Prop :=
  is_applicable self state x p = is_applicable self state x' p'
  /\ get_unsatisfied_conditions self state x p early_termination
     = get_unsatisfied_conditions self state x' p' early_termination
  /\ apply self state x p = apply self state x' p'
  /\ apply_unsafe self state x p = apply_unsafe self state x' p'.

End Mixin.

(** A subclass that keeps every hook of [C] and overrides [_apply] with
    the one the spec describes, built on the inherited methods. *)
Definition override_apply {M : Model} (C : SimulatorClass) : SimulatorClass := {|
  issubclass_Engine := @issubclass_Engine M C;
  type_self := @type_self M C;
  supports := @supports M C;
  _get_initial_state := @_get_initial_state M C;
  _get_unsatisfied_conditions := @_get_unsatisfied_conditions M C;
  _apply := @spec_apply M C;
  _apply_unsafe := @_apply_unsafe M C;
  _get_applicable_actions := @_get_applicable_actions M C;
  _get_unsatisfied_goals := @_get_unsatisfied_goals M C
|}.

(** ** A small engine to run the definitions on *)

(** The scenario of the spec: a fluent [at(robot)] over the locations [A]
    and [B]; an action [move(to)] with precondition [at(robot) != to] and
    effect [at(robot) := to]; and an action [scatter()] whose two effects
    assign [A] and [B] to [at(robot)] at once, which is a conflict. *)
Module Robot.

(** [Limbo] is an object of type location outside the domain of
    [at(robot)]. *)
Inductive location : Type := A | B | Limbo.

Inductive type : Type := LocationType | BoolType.

Inductive fnode : Type :=
| ObjectExp (l : location)
| BoolConstant (b : bool)
| AtRobotIs (l : location)
| Not (n : fnode).

(** The expressions a caller may pass: a node, an object or a Python
    [bool]. *)
Inductive expression : Type :=
| Node (n : fnode)
| Object (l : location)
| PyBool (b : bool).

Inductive act : Type := move | scatter.

Inductive kind : Type := Classical | Temporal.

Inductive problem : Type := RobotProblem | TimedRobotProblem.

Definition location_eqb (l l' : location) : bool :=
  match l, l' with
  | A, A | B, B | Limbo, Limbo => true
  | _, _ => false
  end.

Definition type_eqb (t t' : type) : bool :=
  match t, t' with
  | LocationType, LocationType | BoolType, BoolType => true
  | _, _ => false
  end.

Definition type_of (n : fnode) : type :=
  match n with ObjectExp _ => LocationType | _ => BoolType end.

Definition promote (e : expression) : fnode :=
  match e with
  | Node n => n
  | Object l => ObjectExp l
  | PyBool b => BoolConstant b
  end.

Definition parameters_of (a : act) : list (string * type) :=
  match a with move => [("to", LocationType)] | scatter => [] end.

Definition kind_of (pb : problem) : kind :=
  match pb with RobotProblem => Classical | TimedRobotProblem => Temporal end.

Definition model : Model := {|
  State := location;
  up_Type := type;
  FNode := fnode;
  Expression := expression;
  up_Parameter := string * type;
  Action := act;
  ProblemKind := kind;
  AbstractProblem := problem;
  is_compatible := type_eqb;
  fnode_type := type_of;
  parameter_type := snd;
  action_parameters := parameters_of;
  problem_kind := kind_of;
  FNode_as_Expression := Node;
  auto_promote := fun _ l => Return (map promote l)
|}.

Definition outside_domain : exn :=
  UPInvalidActionError "Limbo is outside the domain of at(robot)".

Definition unsatisfied_conditions (s : location) (a : act) (ps : list fnode)
    : result (list fnode) :=
  match a, ps with
  | move, [ObjectExp Limbo] => Raise outside_domain
  | move, [ObjectExp to] =>
      if location_eqb s to then Return [Not (AtRobotIs to)] else Return []
  | scatter, [] => Return []
  | _, _ => Raise (UPInvalidActionError "the action cannot be grounded")
  end.

Definition successor (a : act) (ps : list fnode) : result (option location) :=
  match a, ps with
  | move, [ObjectExp Limbo] => Raise outside_domain
  | move, [ObjectExp to] => Return (Some to)
  | scatter, [] => Return None
  | _, _ => Raise (UPInvalidActionError "the action cannot be grounded")
  end.

Definition supports_kind (k : kind) : bool :=
  match k with Classical => true | Temporal => false end.

Definition applicable_actions (s : location) : list (act * list fnode) :=
  match s with
  | A => [(move, [ObjectExp B]); (scatter, [])]
  | B => [(move, [ObjectExp A]); (scatter, [])]
  | Limbo => [(move, [ObjectExp A]); (move, [ObjectExp B]); (scatter, [])]
  end.

(** The goal is [at(robot) = B]. *)
Definition unsatisfied_goals (s : location) : list fnode :=
  if location_eqb s B then [] else [AtRobotIs B].

(** The engine without [_apply]... *)
Definition Base : SimulatorClass :=
  @Build_SimulatorClass model
    true                                               (* issubclass_Engine *)
    "<class 'RobotSimulator'>"                         (* type_self *)
    supports_kind                                      (* supports *)
    (fun _ => Return A)                                (* _get_initial_state *)
    (fun _ s a ps _ => unsatisfied_conditions s a ps)  (* _get_unsatisfied_conditions *)
    (fun _ _ _ _ => Raise NotImplementedError)         (* _apply *)
    (fun _ _ a ps => successor a ps)                   (* _apply_unsafe *)
    (fun _ s => Return (applicable_actions s))         (* _get_applicable_actions *)
    (fun _ s _ => Return (unsatisfied_goals s)).       (* _get_unsatisfied_goals *)

(** ... and with it. *)
Definition Simulator : SimulatorClass := override_apply Base.

Definition strict : Engine :=
  {| name := "robot"; skip_checks := false; error_on_failed_checks := true |}.

Definition lenient : Engine :=
  {| name := "robot"; skip_checks := false; error_on_failed_checks := false |}.

Definition unchecked : Engine :=
  {| name := "robot"; skip_checks := true; error_on_failed_checks := true |}.

Definition self : Self :=
  @Build_Self model strict RobotProblem.

(** [move(B)], and an instance of [move] built without its parameter. *)
Definition move_B : ActionInstance :=
  @Build_ActionInstance model move [ObjectExp B].

Definition move_nothing : ActionInstance :=
  @Build_ActionInstance model move [].

(** An instance of [move] whose actual parameter is a Boolean constant,
    not a location. *)
Definition move_true : ActionInstance :=
  @Build_ActionInstance model move [BoolConstant true].

(** The arguments of the calls below, at their Python types. *)
Definition Move : action_or_action_instance := @AnAction model move.
Definition Scatter : action_or_action_instance := @AnAction model scatter.
Definition none : parameters_arg := @NoParameters model.
Definition one (e : expression) : parameters_arg := @SingleParameter model e.
Definition several (l : list expression) : parameters_arg :=
  @ParameterSequence model l.

End Robot.

(** The robot engine again, with an expression manager that refuses
    Python booleans as parameters. *)
Module StrictRobot.

Fixpoint promote_all (l : list Robot.expression) : result (list Robot.fnode) :=
  match l with
  | [] => Return []
  | Robot.PyBool _ :: _ => Raise (OtherException "UPTypeError")
  | e :: l' => nodes <- promote_all l' ;; Return (Robot.promote e :: nodes)
  end.

Definition model : Model := {|
  State := Robot.location;
  up_Type := Robot.type;
  FNode := Robot.fnode;
  Expression := Robot.expression;
  up_Parameter := string * Robot.type;
  Action := Robot.act;
  ProblemKind := Robot.kind;
  AbstractProblem := Robot.problem;
  is_compatible := Robot.type_eqb;
  fnode_type := Robot.type_of;
  parameter_type := snd;
  action_parameters := Robot.parameters_of;
  problem_kind := Robot.kind_of;
  FNode_as_Expression := Robot.Node;
  auto_promote := fun _ l => promote_all l
|}.

Definition Simulator : SimulatorClass :=
  @Build_SimulatorClass model
    true
    "<class 'StrictRobotSimulator'>"
    Robot.supports_kind
    (fun _ => Return Robot.A)
    (fun _ s a ps _ => Robot.unsatisfied_conditions s a ps)
    (fun _ _ _ _ => Raise NotImplementedError)
    (fun _ _ a ps => Robot.successor a ps)
    (fun _ s => Return (Robot.applicable_actions s))
    (fun _ s _ => Return (Robot.unsatisfied_goals s)).

Definition self : Self := @Build_Self model Robot.strict Robot.RobotProblem.

End StrictRobot.

(** * Properties *)

Section Properties.
Context {M : Model} {C : SimulatorClass}.

Implicit Types (self : Self) (s : State) (a : Action) (ai : ActionInstance).
Implicit Types (x : action_or_action_instance) (p : parameters_arg).
Implicit Types (ps : list FNode) (m : string) (et : bool).

(** ** The error monad *)

Lemma bind_Return_inv {A B : Type} (c : result A) (k : A -> result B) (b : B) :
  bind c k = Return b -> exists v, c = Return v /\ k v = Return b.
Proof.
  destruct c as [v | e]; simpl; intros H; [eauto | discriminate].
Qed.

Lemma length_eqb_0 {A : Type} (l : list A) :
  (List.length l =? 0)%nat = true <-> l = [].
Proof.
  destruct l; simpl; split; intros H; congruence.
Qed.

(** ** Grounding resolution *)

Lemma handle_instance self ai m :
  _handle_parameters_polymorphism self (AnActionInstance ai) NoParameters m
  = Return (action ai, actual_parameters ai).
Proof. reflexivity. Qed.

Lemma handle_instance_with_parameters self ai p m :
  p <> NoParameters ->
  _handle_parameters_polymorphism self (AnActionInstance ai) p m
  = Raise (ambiguous_grounding m).
Proof.
  intros Hp. destruct p; [contradiction | reflexivity | reflexivity].
Qed.

Lemma handle_action self a p m :
  _handle_parameters_polymorphism self (AnAction a) p m
  = (params <- promote_parameters self p ;;
     if rejected a params then Raise (incompatible_parameters m)
     else Return (a, params)).
Proof. reflexivity. Qed.

Lemma handle_action_Return self a p m r :
  _handle_parameters_polymorphism self (AnAction a) p m = Return r ->
  exists params, promote_parameters self p = Return params
    /\ rejected a params = false /\ r = (a, params).
Proof.
  rewrite handle_action. intros H.
  apply bind_Return_inv in H as (params & Hp & Hk).
  exists params. destruct (rejected a params); [discriminate |].
  injection Hk as <-. auto.
Qed.

(** Only the text of the error depends on the name of the method. *)
Lemma handle_Return_any_method self x p m m' r :
  _handle_parameters_polymorphism self x p m = Return r ->
  _handle_parameters_polymorphism self x p m' = Return r.
Proof.
  destruct x as [a | ai].
  - intros H. apply handle_action_Return in H as (params & Hp & Hr & ->).
    rewrite handle_action, Hp. simpl. now rewrite Hr.
  - destruct p; simpl; intros H; [exact H | discriminate | discriminate].
Qed.

Lemma handle_Raise_any_method self x p m m' e :
  _handle_parameters_polymorphism self x p m = Raise e ->
  exists e', _handle_parameters_polymorphism self x p m' = Raise e'.
Proof.
  intros H.
  destruct (_handle_parameters_polymorphism self x p m') as [r | e'] eqn:H'.
  - apply handle_Return_any_method with (m' := m) in H'. congruence.
  - eauto.
Qed.

(** [any(...)] over the zip finds an incompatible pair exactly when some
    position holds one. *)
Lemma existsb_not_compatible (ps : list FNode) (aps : list up_Parameter) :
  existsb not_compatible (combine ps aps) = true <->
  exists i n ap, nth_error ps i = Some n /\ nth_error aps i = Some ap
    /\ is_compatible (parameter_type ap) (fnode_type n) = false.
Proof.
  revert aps. induction ps as [| n ps IH]; intros aps.
  - simpl. split; [discriminate |].
    intros (i & n & ap & Hn & _). destruct i; discriminate.
  - destruct aps as [| ap aps].
    + simpl. split; [discriminate |].
      intros (i & n' & ap & _ & Hap & _). destruct i; discriminate.
    + simpl. rewrite orb_true_iff, IH. split.
      * intros [H | (i & n' & ap' & Hn & Hap & Hc)].
        -- exists 0, n, ap. unfold not_compatible in H. simpl in H.
           apply negb_true_iff in H. auto.
        -- exists (S i), n', ap'. auto.
      * intros (i & n' & ap' & Hn & Hap & Hc). destruct i as [| i].
        -- simpl in Hn, Hap. injection Hn as <-. injection Hap as <-.
           left. unfold not_compatible. simpl. now rewrite Hc.
        -- right. exists i, n', ap'. auto.
Qed.

Lemma rejected_true a ps :
  rejected a ps = true <->
  List.length ps <> List.length (action_parameters a)
  \/ exists i n ap, nth_error ps i = Some n
       /\ nth_error (action_parameters a) i = Some ap
       /\ is_compatible (parameter_type ap) (fnode_type n) = false.
Proof.
  unfold rejected. rewrite orb_true_iff, negb_true_iff, Nat.eqb_neq.
  now rewrite existsb_not_compatible.
Qed.

Lemma rejected_false a ps :
  rejected a ps = false <->
  List.length ps = List.length (action_parameters a)
  /\ forall i n ap, nth_error ps i = Some n ->
       nth_error (action_parameters a) i = Some ap ->
       is_compatible (parameter_type ap) (fnode_type n) = true.
Proof.
  split.
  - intros H. split.
    + destruct (Nat.eq_dec (List.length ps) (List.length (action_parameters a)))
        as [E | N]; [exact E |].
      assert (rejected a ps = true) by (apply rejected_true; auto). congruence.
    + intros i n ap Hn Hap.
      destruct (is_compatible (parameter_type ap) (fnode_type n)) eqn:Hc;
        [reflexivity |].
      assert (rejected a ps = true)
        by (apply rejected_true; right; exists i, n, ap; auto).
      congruence.
  - intros [Hlen Hall].
    destruct (rejected a ps) eqn:H; [| reflexivity].
    apply rejected_true in H as [N | (i & n & ap & Hn & Hap & Hc)].
    + contradiction.
    + rewrite (Hall i n ap Hn Hap) in Hc. discriminate.
Qed.

Lemma well_formed_not_rejected ai :
  well_formed_instance ai <->
  rejected (action ai) (actual_parameters ai) = false.
Proof. symmetry. apply rejected_false. Qed.

(** ** What the public methods do once the grounding is resolved *)

Lemma public_methods_after_resolution self s x p et a ps :
  (_handle_parameters_polymorphism self x p "is_applicable" = Return (a, ps) ->
   is_applicable self s x p = _is_applicable self s a ps)
  /\ (_handle_parameters_polymorphism self x p "get_unsatisfied_conditions"
        = Return (a, ps) ->
      get_unsatisfied_conditions self s x p et
      = _get_unsatisfied_conditions self s a ps et)
  /\ (_handle_parameters_polymorphism self x p "apply" = Return (a, ps) ->
      apply self s x p = _apply self s a ps)
  /\ (_handle_parameters_polymorphism self x p "apply_unsafe" = Return (a, ps) ->
      apply_unsafe self s x p = _apply_unsafe self s a ps).
Proof.
  unfold is_applicable, get_unsatisfied_conditions, apply, apply_unsafe.
  repeat split; intros ->; reflexivity.
Qed.

Lemma public_methods_resolution_raises self s x p et e :
  (_handle_parameters_polymorphism self x p "is_applicable" = Raise e ->
   is_applicable self s x p = Raise e)
  /\ (_handle_parameters_polymorphism self x p "get_unsatisfied_conditions"
        = Raise e ->
      get_unsatisfied_conditions self s x p et = Raise e)
  /\ (_handle_parameters_polymorphism self x p "apply" = Raise e ->
      apply self s x p = Raise e)
  /\ (_handle_parameters_polymorphism self x p "apply_unsafe" = Raise e ->
      apply_unsafe self s x p = Raise e).
Proof.
  unfold is_applicable, get_unsatisfied_conditions, apply, apply_unsafe.
  repeat split; intros ->; reflexivity.
Qed.

(** ** Applicability *)

Lemma _is_applicable_cases self s a ps :
  _is_applicable self s a ps =
  match get_unsatisfied_conditions self s (AnAction a)
          (ParameterSequence (map FNode_as_Expression ps)) true with
  | Return unsat => Return (List.length unsat =? 0)%nat
  | Raise (UPInvalidActionError _) => Return false
  | Raise e => Raise e
  end.
Proof.
  unfold _is_applicable.
  destruct (get_unsatisfied_conditions _ _ _ _ _) as [unsat | []]; reflexivity.
Qed.

Lemma _is_applicable_true self s a ps :
  _is_applicable self s a ps = Return true <->
  get_unsatisfied_conditions self s (AnAction a)
    (ParameterSequence (map FNode_as_Expression ps)) true = Return [].
Proof.
  rewrite _is_applicable_cases.
  destruct (get_unsatisfied_conditions _ _ _ _ _) as [unsat | e].
  - split; intros H.
    + injection H as H. apply length_eqb_0 in H. now subst.
    + injection H as ->. reflexivity.
  - split; intros H; [destruct e; discriminate | discriminate].
Qed.

Lemma _is_applicable_UPInvalidActionError self s a ps msg :
  get_unsatisfied_conditions self s (AnAction a)
    (ParameterSequence (map FNode_as_Expression ps)) true
  = Raise (UPInvalidActionError msg) ->
  _is_applicable self s a ps = Return false.
Proof. intros H. rewrite _is_applicable_cases, H. reflexivity. Qed.

(** The public [is_applicable] is [_is_applicable] on the resolved pair. *)
Lemma is_applicable_true self s x p :
  is_applicable self s x p = Return true <->
  exists a ps,
    _handle_parameters_polymorphism self x p "is_applicable" = Return (a, ps)
    /\ get_unsatisfied_conditions self s (AnAction a)
         (ParameterSequence (map FNode_as_Expression ps)) true = Return [].
Proof.
  unfold is_applicable. split.
  - intros H. apply bind_Return_inv in H as ([a ps] & Hh & H).
    exists a, ps. split; [exact Hh |]. now apply _is_applicable_true.
  - intros (a & ps & -> & H). simpl. now apply _is_applicable_true.
Qed.

(** When promotion keeps nodes, resolving the resolved pair again gives
    the same pair. *)
Lemma handle_again self m a ps :
  auto_promote_keeps_nodes (_problem self) ->
  rejected a ps = false ->
  _handle_parameters_polymorphism self (AnAction a)
    (ParameterSequence (map FNode_as_Expression ps)) m = Return (a, ps).
Proof.
  intros Hkeep Hr. rewrite handle_action. simpl. rewrite (Hkeep ps). simpl.
  now rewrite Hr.
Qed.

(** With it, the check of the conditions made by [_is_applicable] is the
    call of the implementation on the pair already resolved. *)
Lemma nested_get_unsatisfied_conditions self s a p m ps et :
  auto_promote_keeps_nodes (_problem self) ->
  _handle_parameters_polymorphism self (AnAction a) p m = Return (a, ps) ->
  get_unsatisfied_conditions self s (AnAction a)
    (ParameterSequence (map FNode_as_Expression ps)) et
  = _get_unsatisfied_conditions self s a ps et.
Proof.
  intros Hkeep Hh.
  apply handle_action_Return in Hh as (params & _ & Hr & E).
  injection E as <-.
  unfold get_unsatisfied_conditions.
  now rewrite (handle_again self _ a ps Hkeep Hr).
Qed.

Lemma handle_action_Return_same_action self a p m a' ps :
  _handle_parameters_polymorphism self (AnAction a) p m = Return (a', ps) ->
  a' = a.
Proof.
  intros H. apply handle_action_Return in H as (params & _ & _ & E).
  now injection E.
Qed.

(** For an [Action] and the parameters as the caller gives them, the two
    public methods agree, provided promotion keeps nodes. *)
Lemma is_applicable_action_iff self s a p :
  auto_promote_keeps_nodes (_problem self) ->
  is_applicable self s (AnAction a) p = Return true <->
  get_unsatisfied_conditions self s (AnAction a) p true = Return [].
Proof.
  intros Hkeep. rewrite is_applicable_true. split.
  - intros (a' & ps & Hh & H).
    pose proof (handle_action_Return_same_action _ _ _ _ _ _ Hh) as ->.
    rewrite (nested_get_unsatisfied_conditions _ _ _ _ _ _ _ Hkeep Hh) in H.
    unfold get_unsatisfied_conditions.
    now rewrite (handle_Return_any_method _ _ _ _
                   "get_unsatisfied_conditions" _ Hh).
  - intros H. unfold get_unsatisfied_conditions in H.
    apply bind_Return_inv in H as ([a' ps] & Hh & H).
    pose proof (handle_action_Return_same_action _ _ _ _ _ _ Hh) as ->.
    exists a, ps. split.
    + exact (handle_Return_any_method _ _ _ _ "is_applicable" _ Hh).
    + now rewrite (nested_get_unsatisfied_conditions _ _ _ _ _ _ _ Hkeep Hh).
Qed.

Lemma is_applicable_action_UPInvalidActionError self s a p msg r :
  auto_promote_keeps_nodes (_problem self) ->
  _handle_parameters_polymorphism self (AnAction a) p
    "get_unsatisfied_conditions" = Return r ->
  get_unsatisfied_conditions self s (AnAction a) p true
  = Raise (UPInvalidActionError msg) ->
  is_applicable self s (AnAction a) p = Return false.
Proof.
  intros Hkeep Hh H. destruct r as [a' ps].
  pose proof (handle_action_Return_same_action _ _ _ _ _ _ Hh) as ->.
  unfold get_unsatisfied_conditions in H. rewrite Hh in H. simpl in H.
  unfold is_applicable.
  rewrite (handle_Return_any_method _ _ _ _ "is_applicable" _ Hh). simpl.
  apply _is_applicable_UPInvalidActionError with (msg := msg).
  now rewrite (nested_get_unsatisfied_conditions _ _ _ _ _ _ _ Hkeep Hh).
Qed.

(** C1.  For every state, action and tuple of parameters, [_is_applicable]
    returns [True] exactly when [get_unsatisfied_conditions], called on
    them with [early_termination=True], returns the empty list, and returns
    [False] when that call raises [UPInvalidActionError].  The same holds
    of the public [is_applicable] for an action and the parameters as the
    caller gives them, where promotion leaves nodes as they are and the
    [UPInvalidActionError] comes after the resolution of the arguments. *)
Theorem is_applicable_iff_no_unsatisfied_condition self s a :
  (forall ps,
     let unsatisfied :=
       get_unsatisfied_conditions self s (AnAction a)
         (ParameterSequence (map FNode_as_Expression ps)) true in
     (_is_applicable self s a ps = Return true <-> unsatisfied = Return [])
     /\ (forall msg, unsatisfied = Raise (UPInvalidActionError msg) ->
         _is_applicable self s a ps = Return false))
  /\ (auto_promote_keeps_nodes (_problem self) ->
      forall p,
        (is_applicable self s (AnAction a) p = Return true <->
         get_unsatisfied_conditions self s (AnAction a) p true = Return [])
        /\ (forall msg r,
              _handle_parameters_polymorphism self (AnAction a) p
                "get_unsatisfied_conditions" = Return r ->
              get_unsatisfied_conditions self s (AnAction a) p true
              = Raise (UPInvalidActionError msg) ->
              is_applicable self s (AnAction a) p = Return false)).
Proof.
  split.
  - intros ps unsatisfied. split.
    + apply _is_applicable_true.
    + intros msg. apply _is_applicable_UPInvalidActionError.
  - intros Hkeep p. split.
    + now apply is_applicable_action_iff.
    + intros msg r. now apply is_applicable_action_UPInvalidActionError.
Qed.

(** ** Goals *)

(** C6.  [is_goal] returns [True] exactly when [get_unsatisfied_goals],
    called with [early_termination=True], returns the empty list; whenever
    that call returns a list, [is_goal] returns whether it is empty. *)
Theorem is_goal_iff_no_unsatisfied_goal self s :
  (is_goal self s = Return true <->
   get_unsatisfied_goals self s true = Return [])
  /\ (forall unsat, get_unsatisfied_goals self s true = Return unsat ->
      is_goal self s = Return (List.length unsat =? 0)%nat).
Proof.
  unfold is_goal, _is_goal. split.
  - split.
    + intros H. apply bind_Return_inv in H as (unsat & -> & H).
      injection H as H. apply length_eqb_0 in H. now subst.
    + intros ->. reflexivity.
  - intros unsat ->. reflexivity.
Qed.

(** ** Errors of the grounding resolution *)

Lemma ambiguous_grounding_is_UPUsageError m :
  is_UPUsageError (ambiguous_grounding m) = true.
Proof. reflexivity. Qed.

Lemma incompatible_parameters_is_UPUsageError m :
  is_UPUsageError (incompatible_parameters m) = true.
Proof. reflexivity. Qed.

(** C3.  Each of [is_applicable], [get_unsatisfied_conditions], [apply]
    and [apply_unsafe], called with an [ActionInstance] and with
    parameters that are not [None], raises [UPUsageError]. *)
Theorem instance_with_parameters_raises_UPUsageError self s ai p et :
  p <> NoParameters ->
  is_applicable self s (AnActionInstance ai) p
  = Raise (ambiguous_grounding "is_applicable")
  /\ get_unsatisfied_conditions self s (AnActionInstance ai) p et
     = Raise (ambiguous_grounding "get_unsatisfied_conditions")
  /\ apply self s (AnActionInstance ai) p
     = Raise (ambiguous_grounding "apply")
  /\ apply_unsafe self s (AnActionInstance ai) p
     = Raise (ambiguous_grounding "apply_unsafe")
  /\ forall m, exists args, ambiguous_grounding m = UPUsageError args.
Proof.
  intros Hp.
  unfold is_applicable, get_unsatisfied_conditions, apply, apply_unsafe.
  rewrite !handle_instance_with_parameters by exact Hp.
  repeat split. intros m. eexists. reflexivity.
Qed.

(** C4.  For an [Action], the parameters are promoted by [auto_promote];
    when the promoted parameters are not as many as the action declares,
    or one of them has a type that the declared type at its position is
    not compatible with, the resolution, and so each public method,
    raises [UPUsageError]; otherwise the resolution returns the action
    with the promoted parameters, in order. *)
Theorem action_parameters_promoted_and_checked self s a p et params :
  promote_parameters self p = Return params ->
  (List.length params <> List.length (action_parameters a)
   \/ (exists i n ap, nth_error params i = Some n
         /\ nth_error (action_parameters a) i = Some ap
         /\ is_compatible (parameter_type ap) (fnode_type n) = false) ->
   (forall m, _handle_parameters_polymorphism self (AnAction a) p m
              = Raise (incompatible_parameters m))
   /\ is_applicable self s (AnAction a) p
      = Raise (incompatible_parameters "is_applicable")
   /\ get_unsatisfied_conditions self s (AnAction a) p et
      = Raise (incompatible_parameters "get_unsatisfied_conditions")
   /\ apply self s (AnAction a) p = Raise (incompatible_parameters "apply")
   /\ apply_unsafe self s (AnAction a) p
      = Raise (incompatible_parameters "apply_unsafe")
   /\ forall m, exists args, incompatible_parameters m = UPUsageError args)
  /\ (List.length params = List.length (action_parameters a) ->
      (forall i n ap, nth_error params i = Some n ->
         nth_error (action_parameters a) i = Some ap ->
         is_compatible (parameter_type ap) (fnode_type n) = true) ->
      forall m, _handle_parameters_polymorphism self (AnAction a) p m
                = Return (a, params)).
Proof.
  intros Hp. split.
  - intros Hbad. apply rejected_true in Hbad.
    assert (Hh : forall m, _handle_parameters_polymorphism self (AnAction a) p m
                           = Raise (incompatible_parameters m)).
    { intros m. rewrite handle_action, Hp. simpl. now rewrite Hbad. }
    unfold is_applicable, get_unsatisfied_conditions, apply, apply_unsafe.
    rewrite !Hh. repeat split; try exact Hh.
    intros m. eexists. reflexivity.
  - intros Hlen Hall m.
    assert (Hok : rejected a params = false) by (apply rejected_false; auto).
    rewrite handle_action, Hp. simpl. now rewrite Hok.
Qed.

(** ** Applying an action *)

(** Either the resolution returns the same pair under every method name,
    or it raises under every one. *)
Lemma resolution_cases self x p :
  (exists a ps, forall m,
     _handle_parameters_polymorphism self x p m = Return (a, ps))
  \/ (forall m, exists e, _handle_parameters_polymorphism self x p m = Raise e).
Proof.
  destruct (_handle_parameters_polymorphism self x p "") as [[a ps] | e] eqn:H.
  - left. exists a, ps. intros m.
    exact (handle_Return_any_method _ _ _ _ m _ H).
  - right. intros m. exact (handle_Raise_any_method _ _ _ _ m _ H).
Qed.

(** C2, as the code has it.  With [_apply] as the spec describes it:
    when [is_applicable] returns [False], [apply] returns [None]; when it
    returns [True], [apply] returns what [apply_unsafe] returns; hence
    [apply] returns [None] exactly when the action is not applicable or it
    is applicable and [apply_unsafe] returns [None]. *)
Theorem apply_checks_then_delegates self s x p :
  apply_as_specified ->
  (is_applicable self s x p = Return false -> apply self s x p = Return None)
  /\ (is_applicable self s x p = Return true ->
      apply self s x p = apply_unsafe self s x p)
  /\ (apply self s x p = Return None <->
      is_applicable self s x p = Return false
      \/ (is_applicable self s x p = Return true
          /\ apply_unsafe self s x p = Return None)).
Proof.
  intros Hspec. unfold is_applicable, apply, apply_unsafe.
  destruct (resolution_cases self x p) as [(a & ps & Hh) | Hh].
  - rewrite !Hh. simpl. rewrite Hspec. unfold spec_apply.
    destruct (_is_applicable self s a ps) as [[|] | e]; simpl.
    + repeat split; try discriminate; auto.
      intros [H | [_ H]]; [discriminate | exact H].
    + repeat split; try discriminate; auto.
    + repeat split; try discriminate.
      intros [H | [H _]]; discriminate.
  - destruct (Hh "is_applicable") as [e1 ->].
    destruct (Hh "apply") as [e2 ->].
    destruct (Hh "apply_unsafe") as [e3 ->]. simpl.
    repeat split; try discriminate.
    intros [H | [H _]]; discriminate.
Qed.

(** ** The two calling conventions *)

(** C5, as the code has it.  Every public method that takes an action
    calls the grounding resolution first and hands the resolved pair to
    its implementation; calling it with an [ActionInstance] that has one
    value of a compatible type for each declared parameter gives the same
    result as calling it with the instance's action and its tuple of
    actual parameters, where promotion leaves the nodes of the tuple as
    they are. *)
Theorem instance_same_as_action_and_parameters self s ai et :
  (forall x p a ps,
     (forall m, _handle_parameters_polymorphism self x p m = Return (a, ps)) ->
     is_applicable self s x p = _is_applicable self s a ps
     /\ get_unsatisfied_conditions self s x p et
        = _get_unsatisfied_conditions self s a ps et
     /\ apply self s x p = _apply self s a ps
     /\ apply_unsafe self s x p = _apply_unsafe self s a ps)
  /\ (well_formed_instance ai ->
      auto_promote_keeps_nodes (_problem self) ->
      same_in_public_methods self s et
        (AnActionInstance ai) NoParameters
        (AnAction (action ai))
        (ParameterSequence (map FNode_as_Expression (actual_parameters ai)))).
Proof.
  split.
  - intros x p a ps Hh.
    pose proof (public_methods_after_resolution self s x p et a ps)
      as (H1 & H2 & H3 & H4).
    auto.
  - intros Hwf Hkeep. apply well_formed_not_rejected in Hwf.
    assert (Hh : forall m,
      _handle_parameters_polymorphism self (AnAction (action ai))
        (ParameterSequence (map FNode_as_Expression (actual_parameters ai))) m
      = _handle_parameters_polymorphism self
          (AnActionInstance ai) NoParameters m).
    { intros m. rewrite handle_instance.
      now apply handle_again. }
    unfold same_in_public_methods, is_applicable, get_unsatisfied_conditions,
      apply, apply_unsafe.
    rewrite !Hh. repeat split.
Qed.

(** C10.  For an [Action], [None] and the empty sequence are resolved to
    the same empty tuple, and a single parameter and the sequence holding
    only it are resolved alike, so each public method gives the same
    result for either form; [auto_promote] returns the empty list for the
    empty sequence. *)
Theorem parameters_argument_forms_agree self s a e et :
  auto_promote (_problem self) [] = Return [] ->
  (promote_parameters self NoParameters = Return []
   /\ promote_parameters self (ParameterSequence []) = Return [])
  /\ promote_parameters self (SingleParameter e)
     = promote_parameters self (ParameterSequence [e])
  /\ (forall m,
        _handle_parameters_polymorphism self (AnAction a) NoParameters m
        = _handle_parameters_polymorphism self (AnAction a)
            (ParameterSequence []) m)
  /\ (forall m,
        _handle_parameters_polymorphism self (AnAction a) (SingleParameter e) m
        = _handle_parameters_polymorphism self (AnAction a)
            (ParameterSequence [e]) m)
  /\ same_in_public_methods self s et
       (AnAction a) NoParameters (AnAction a) (ParameterSequence [])
  /\ same_in_public_methods self s et
       (AnAction a) (SingleParameter e) (AnAction a) (ParameterSequence [e]).
Proof.
  intros Hnil.
  assert (Hh : forall m,
    _handle_parameters_polymorphism self (AnAction a) NoParameters m
    = _handle_parameters_polymorphism self (AnAction a) (ParameterSequence []) m).
  { intros m. rewrite !handle_action. simpl. now rewrite Hnil. }
  repeat apply conj; try reflexivity; try exact Hnil; try exact Hh;
    unfold is_applicable, get_unsatisfied_conditions, apply, apply_unsafe;
    now rewrite Hh.
Qed.

(** ** Which errors are recovered *)

Lemma _is_applicable_Raise self s a ps e :
  get_unsatisfied_conditions self s (AnAction a)
    (ParameterSequence (map FNode_as_Expression ps)) true = Raise e ->
  _is_applicable self s a ps = recovered e false.
Proof.
  intros H. rewrite _is_applicable_cases, H. destruct e; reflexivity.
Qed.

(** C7.  A [UPUsageError] of the grounding resolution leaves each public
    method as it is; inside [is_applicable], and inside [apply] with
    [_apply] as the spec describes it, an exception of the check of the
    conditions is turned into "not applicable" when it is a
    [UPInvalidActionError] and passes through otherwise, a [UPUsageError]
    included; [get_unsatisfied_conditions] lets the
    [UPInvalidActionError] of its implementation through. *)
Theorem UPUsageError_surfaced_UPInvalidActionError_recovered self s x p et :
  (forall args,
     (_handle_parameters_polymorphism self x p "is_applicable"
        = Raise (UPUsageError args) ->
      is_applicable self s x p = Raise (UPUsageError args))
     /\ (_handle_parameters_polymorphism self x p "get_unsatisfied_conditions"
           = Raise (UPUsageError args) ->
         get_unsatisfied_conditions self s x p et = Raise (UPUsageError args))
     /\ (_handle_parameters_polymorphism self x p "apply"
           = Raise (UPUsageError args) ->
         apply self s x p = Raise (UPUsageError args))
     /\ (_handle_parameters_polymorphism self x p "apply_unsafe"
           = Raise (UPUsageError args) ->
         apply_unsafe self s x p = Raise (UPUsageError args)))
  /\ (forall a ps e,
        _handle_parameters_polymorphism self x p "is_applicable"
          = Return (a, ps) ->
        get_unsatisfied_conditions self s (AnAction a)
          (ParameterSequence (map FNode_as_Expression ps)) true = Raise e ->
        is_applicable self s x p = recovered e false)
  /\ (apply_as_specified ->
      forall a ps e,
        _handle_parameters_polymorphism self x p "apply" = Return (a, ps) ->
        get_unsatisfied_conditions self s (AnAction a)
          (ParameterSequence (map FNode_as_Expression ps)) true = Raise e ->
        apply self s x p = recovered e None)
  /\ (forall a ps msg,
        _handle_parameters_polymorphism self x p "get_unsatisfied_conditions"
          = Return (a, ps) ->
        _get_unsatisfied_conditions self s a ps et
          = Raise (UPInvalidActionError msg) ->
        get_unsatisfied_conditions self s x p et
          = Raise (UPInvalidActionError msg)).
Proof.
  repeat apply conj.
  - intros args. apply public_methods_resolution_raises.
  - intros a ps e Hh H. unfold is_applicable. rewrite Hh. simpl.
    now apply _is_applicable_Raise.
  - intros Hspec a ps e Hh H. unfold apply. rewrite Hh. simpl.
    rewrite Hspec. unfold spec_apply.
    rewrite (_is_applicable_Raise _ _ _ _ _ H). destruct e; reflexivity.
  - intros a ps msg Hh H. unfold get_unsatisfied_conditions.
    rewrite Hh. simpl. exact H.
Qed.

(** ** Instances are taken as they are *)

(** C8, as the code has it.  For an [ActionInstance] and no parameters the
    resolution returns the instance's action and actual parameters
    unchecked, so [get_unsatisfied_conditions], [apply] and [apply_unsafe]
    hand them to their implementation whatever they are; [is_applicable]
    hands them to [_is_applicable], which resolves them once more as an
    action with parameters, and raises [UPUsageError] when, promoted,
    they do not fit the action in number or in type. *)
Theorem instance_resolved_unchecked self s ai et :
  (forall m,
     _handle_parameters_polymorphism self (AnActionInstance ai) NoParameters m
     = Return (action ai, actual_parameters ai))
  /\ get_unsatisfied_conditions self s (AnActionInstance ai) NoParameters et
     = _get_unsatisfied_conditions self s (action ai) (actual_parameters ai) et
  /\ apply self s (AnActionInstance ai) NoParameters
     = _apply self s (action ai) (actual_parameters ai)
  /\ apply_unsafe self s (AnActionInstance ai) NoParameters
     = _apply_unsafe self s (action ai) (actual_parameters ai)
  /\ is_applicable self s (AnActionInstance ai) NoParameters
     = _is_applicable self s (action ai) (actual_parameters ai)
  /\ (forall params,
        auto_promote (_problem self)
          (map FNode_as_Expression (actual_parameters ai)) = Return params ->
        List.length params <> List.length (action_parameters (action ai))
        \/ (exists i n ap, nth_error params i = Some n
              /\ nth_error (action_parameters (action ai)) i = Some ap
              /\ is_compatible (parameter_type ap) (fnode_type n) = false) ->
        is_applicable self s (AnActionInstance ai) NoParameters
        = Raise (incompatible_parameters "get_unsatisfied_conditions")).
Proof.
  repeat apply conj; try reflexivity.
  intros params Hp Hbad. apply rejected_true in Hbad.
  unfold is_applicable. rewrite handle_instance. simpl.
  rewrite _is_applicable_cases. unfold get_unsatisfied_conditions.
  rewrite handle_action. simpl. rewrite Hp. simpl. now rewrite Hbad.
Qed.

(** ** The constructor *)

(** C9.  In a class that derives from [Engine]: when the checks are not
    skipped and the class does not support the kind of the problem, the
    constructor raises [UPUsageError] if [error_on_failed_checks] is set
    and otherwise emits one warning and returns the object; when the
    checks are skipped or the kind is supported, it returns the object
    and emits nothing. *)
Theorem constructor_checks_problem_kind e problem :
  issubclass_Engine = true ->
  let self := {| engine := e; _problem := problem |} in
  (skip_checks e = false -> supports (problem_kind problem) = false ->
   error_on_failed_checks e = true ->
   __init__ e problem = ([], Raise (UPUsageError [cannot_establish e])))
  /\ (skip_checks e = false -> supports (problem_kind problem) = false ->
      error_on_failed_checks e = false ->
      __init__ e problem = ([cannot_establish e], Return self))
  /\ (skip_checks e = true \/ supports (problem_kind problem) = true ->
      __init__ e problem = ([], Return self)).
Proof.
  intros Hsub self. unfold __init__. rewrite Hsub. simpl.
  repeat apply conj.
  - intros -> -> ->. reflexivity.
  - intros -> -> ->. reflexivity.
  - intros [-> | ->]; simpl; [reflexivity |].
    now rewrite andb_false_r.
Qed.

End Properties.

(** * The properties on the robot engine *)

(** A class built by [override_apply] has [_apply] as specified. *)
Lemma override_apply_as_specified (M : Model) (C : SimulatorClass) :
  @apply_as_specified M (override_apply C).
Proof. intros self s a ps. reflexivity. Qed.

Section RobotRuns.
Import Robot.

(** The scenario of the spec, run. *)
Example robot_scenario :
  @is_applicable model Simulator self A Move (several [Object A]) = Return false
  /\ @is_applicable model Simulator self A Move (several [Object B]) = Return true
  /\ @apply model Simulator self A Move (several [Object B]) = Return (Some B)
  /\ @apply model Simulator self B Move (several [Object A]) = Return (Some A)
  /\ @apply_unsafe model Simulator self A Scatter none = Return None.
Proof. repeat split. Qed.

End RobotRuns.

Lemma is_applicable_iff_no_unsatisfied_condition_witness :
  @auto_promote_keeps_nodes Robot.model (_problem Robot.self)
  /\ @is_applicable Robot.model Robot.Simulator Robot.self Robot.A
       Robot.Move (Robot.one (Robot.Object Robot.B)) = Return true
  /\ @is_applicable Robot.model Robot.Simulator Robot.self Robot.A
       Robot.Move (Robot.one (Robot.Object Robot.Limbo)) = Return false.
Proof.
  assert (Hkeep : @auto_promote_keeps_nodes Robot.model (_problem Robot.self)).
  { intros nodes. simpl. f_equal.
    induction nodes as [| n nodes IH]; simpl; [reflexivity | now rewrite IH]. }
  split; [exact Hkeep |].
  pose proof (proj2 (@is_applicable_iff_no_unsatisfied_condition Robot.model
                Robot.Simulator Robot.self Robot.A Robot.move) Hkeep) as H.
  split.
  - exact (proj2 (proj1 (H (Robot.one (Robot.Object Robot.B)))) eq_refl).
  - exact (proj2 (H (Robot.one (Robot.Object Robot.Limbo)))
             "Limbo is outside the domain of at(robot)"
             (Robot.move, [Robot.ObjectExp Robot.Limbo]) eq_refl eq_refl).
Defined.

(** C2 as stated fails: [scatter()] is applicable in [A], and [apply]
    returns [None] for it because its effects conflict. *)
Lemma apply_absent_although_applicable :
  @apply_as_specified Robot.model Robot.Simulator
  /\ @is_applicable Robot.model Robot.Simulator
       Robot.self Robot.A Robot.Scatter Robot.none = Return true
  /\ ~ (@apply Robot.model Robot.Simulator
          Robot.self Robot.A Robot.Scatter Robot.none = Return None
        <-> @is_applicable Robot.model Robot.Simulator
              Robot.self Robot.A Robot.Scatter Robot.none = Return false).
Proof.
  split; [apply override_apply_as_specified |].
  split; [reflexivity |].
  intros [H _]. specialize (H eq_refl). discriminate H.
Qed.

Lemma apply_checks_then_delegates_witness :
  @apply_as_specified Robot.model Robot.Simulator
  /\ @apply Robot.model Robot.Simulator
       Robot.self Robot.A Robot.Move (Robot.one (Robot.Object Robot.B))
     = Return (Some Robot.B)
  /\ @apply Robot.model Robot.Simulator
       Robot.self Robot.A Robot.Move (Robot.one (Robot.Object Robot.A))
     = Return None.
Proof.
  assert (H : @apply_as_specified Robot.model Robot.Simulator)
    by (intros self0 s a ps; reflexivity).
  split; [exact H |]. split.
  - exact (proj1 (proj2 (@apply_checks_then_delegates Robot.model
             Robot.Simulator Robot.self Robot.A Robot.Move
             (Robot.one (Robot.Object Robot.B)) H)) eq_refl).
  - exact (proj1 (@apply_checks_then_delegates Robot.model
             Robot.Simulator Robot.self Robot.A Robot.Move
             (Robot.one (Robot.Object Robot.A)) H) eq_refl).
Defined.

Lemma instance_with_parameters_raises_UPUsageError_witness :
  Robot.one (Robot.Object Robot.B) <> Robot.none
  /\ @is_applicable Robot.model Robot.Simulator Robot.self Robot.A
       (AnActionInstance Robot.move_B) (Robot.one (Robot.Object Robot.B))
     = Raise (UPUsageError
         ["<class 'RobotSimulator'>.is_applicable method does not accept an ActionInstance and also the parameters."]).
Proof.
  assert (H : Robot.one (Robot.Object Robot.B) <> Robot.none)
    by (intros E; discriminate E).
  split; [exact H |].
  exact (proj1 (@instance_with_parameters_raises_UPUsageError Robot.model
           Robot.Simulator Robot.self Robot.A Robot.move_B
           (Robot.one (Robot.Object Robot.B)) true H)).
Defined.

Lemma action_parameters_promoted_and_checked_witness :
  (@promote_parameters Robot.model Robot.self
     (Robot.several [Robot.PyBool true]) = Return [Robot.BoolConstant true]
   /\ @is_applicable Robot.model Robot.Simulator Robot.self Robot.A
        Robot.Move (Robot.several [Robot.PyBool true])
      = Raise (@incompatible_parameters Robot.model Robot.Simulator
                 "is_applicable"))
  /\ (@promote_parameters Robot.model Robot.self
        (Robot.one (Robot.Object Robot.B)) = Return [Robot.ObjectExp Robot.B]
      /\ @_handle_parameters_polymorphism Robot.model Robot.Simulator
           Robot.self Robot.Move (Robot.one (Robot.Object Robot.B)) "apply"
         = Return (Robot.move, [Robot.ObjectExp Robot.B])).
Proof.
  split; (split; [reflexivity |]).
  - refine (proj1 (proj2 (proj1
      (@action_parameters_promoted_and_checked Robot.model Robot.Simulator
         Robot.self Robot.A Robot.move (Robot.several [Robot.PyBool true])
         true [Robot.BoolConstant true] eq_refl) _))).
    right. exists 0, (Robot.BoolConstant true), ("to", Robot.LocationType).
    repeat split.
  - refine (proj2
      (@action_parameters_promoted_and_checked Robot.model Robot.Simulator
         Robot.self Robot.A Robot.move (Robot.one (Robot.Object Robot.B))
         true [Robot.ObjectExp Robot.B] eq_refl) eq_refl _ "apply").
    intros [| [| i]] n ap Hn Hap; simpl in Hn, Hap; try discriminate.
    injection Hn as <-. injection Hap as <-. reflexivity.
Defined.

(** C5 as stated fails for an instance whose actual parameter is not of
    the declared type: given as an instance it reaches the implementation,
    given as its action with its tuple of actual parameters it is refused
    with [UPUsageError] by the resolution, although promotion leaves the
    tuple as it is. *)
Lemma instance_differs_from_action_and_parameters :
  @auto_promote Robot.model Robot.RobotProblem
    (map Robot.Node (actual_parameters Robot.move_true))
  = Return (actual_parameters Robot.move_true)
  /\ @get_unsatisfied_conditions Robot.model Robot.Simulator Robot.self Robot.A
       (AnActionInstance Robot.move_true) Robot.none true
     = @_get_unsatisfied_conditions Robot.model Robot.Simulator Robot.self
         Robot.A Robot.move [Robot.BoolConstant true] true
  /\ @get_unsatisfied_conditions Robot.model Robot.Simulator Robot.self Robot.A
       (AnActionInstance Robot.move_true) Robot.none true
     = Raise (UPInvalidActionError "the action cannot be grounded")
  /\ @get_unsatisfied_conditions Robot.model Robot.Simulator Robot.self Robot.A
       Robot.Move (Robot.several [Robot.Node (Robot.BoolConstant true)]) true
     = Raise (UPUsageError
         ["The parameters given to the <class 'RobotSimulator'>.get_unsatisfied_conditions method are ";
          "not compatible with the given action's parameters."])
  /\ @apply_unsafe Robot.model Robot.Simulator Robot.self Robot.A
       (AnActionInstance Robot.move_true) Robot.none
     <> @apply_unsafe Robot.model Robot.Simulator Robot.self Robot.A
          Robot.Move (Robot.several [Robot.Node (Robot.BoolConstant true)])
  /\ ~ @same_in_public_methods Robot.model Robot.Simulator
         Robot.self Robot.A true
         (AnActionInstance Robot.move_true) Robot.none
         (@AnAction Robot.model (action Robot.move_true))
         (@ParameterSequence Robot.model
            (map Robot.Node (actual_parameters Robot.move_true))).
Proof.
  repeat apply conj; try reflexivity.
  - intros H. discriminate H.
  - intros (_ & H & _). discriminate H.
Qed.

Lemma instance_same_as_action_and_parameters_witness :
  @well_formed_instance Robot.model Robot.move_B
  /\ @auto_promote_keeps_nodes Robot.model Robot.RobotProblem
  /\ @is_applicable Robot.model Robot.Simulator Robot.self Robot.A
       (AnActionInstance Robot.move_B) Robot.none
     = @is_applicable Robot.model Robot.Simulator Robot.self Robot.A
         Robot.Move (Robot.several [Robot.Node (Robot.ObjectExp Robot.B)]).
Proof.
  assert (Hwf : @well_formed_instance Robot.model Robot.move_B).
  { split; [reflexivity |].
    intros [| [| i]] n ap Hn Hap; simpl in Hn, Hap; try discriminate.
    injection Hn as <-. injection Hap as <-. reflexivity. }
  assert (Hkeep : @auto_promote_keeps_nodes Robot.model Robot.RobotProblem).
  { intros nodes. simpl. f_equal.
    induction nodes as [| n nodes IH]; simpl; [reflexivity | now rewrite IH]. }
  split; [exact Hwf |]. split; [exact Hkeep |].
  exact (proj1 (proj2 (@instance_same_as_action_and_parameters Robot.model
           Robot.Simulator Robot.self Robot.A Robot.move_B true) Hwf Hkeep)).
Defined.

Lemma UPUsageError_surfaced_UPInvalidActionError_recovered_witness :
  @apply_as_specified Robot.model Robot.Simulator
  /\ @is_applicable Robot.model Robot.Simulator Robot.self Robot.A
       Robot.Move (Robot.one (Robot.Object Robot.Limbo)) = Return false
  /\ @apply Robot.model Robot.Simulator Robot.self Robot.A
       Robot.Move (Robot.one (Robot.Object Robot.Limbo)) = Return None
  /\ @get_unsatisfied_conditions Robot.model Robot.Simulator Robot.self
       Robot.A Robot.Move (Robot.one (Robot.Object Robot.Limbo)) true
     = Raise Robot.outside_domain
  /\ @apply Robot.model Robot.Simulator Robot.self Robot.A
       Robot.Move Robot.none
     = Raise (@incompatible_parameters Robot.model Robot.Simulator "apply").
Proof.
  assert (Hspec : @apply_as_specified Robot.model Robot.Simulator)
    by (intros self0 s a ps; reflexivity).
  pose proof (@UPUsageError_surfaced_UPInvalidActionError_recovered
                Robot.model Robot.Simulator Robot.self Robot.A Robot.Move
                (Robot.one (Robot.Object Robot.Limbo)) true)
    as (_ & Hcheck & Happly & Hdirect).
  pose proof (@UPUsageError_surfaced_UPInvalidActionError_recovered
                Robot.model Robot.Simulator Robot.self Robot.A Robot.Move
                Robot.none true)
    as (Husage & _).
  split; [exact Hspec |]. split; [| split; [| split]].
  - exact (Hcheck Robot.move [Robot.ObjectExp Robot.Limbo]
             Robot.outside_domain eq_refl eq_refl).
  - exact (Happly Hspec Robot.move [Robot.ObjectExp Robot.Limbo]
             Robot.outside_domain eq_refl eq_refl).
  - exact (Hdirect Robot.move [Robot.ObjectExp Robot.Limbo]
             "Limbo is outside the domain of at(robot)" eq_refl eq_refl).
  - destruct (Husage
      ["The parameters given to the <class 'RobotSimulator'>.apply method are ";
       "not compatible with the given action's parameters."])
      as (_ & _ & Hap & _).
    exact (Hap eq_refl).
Defined.

(** C8 as stated fails for [is_applicable]: an instance of [move] that has
    no actual parameter makes it raise [UPUsageError], while
    [get_unsatisfied_conditions] hands the same instance to its
    implementation. *)
Lemma is_applicable_rejects_mismatched_instance :
  List.length (actual_parameters Robot.move_nothing)
    <> List.length (@action_parameters Robot.model (action Robot.move_nothing))
  /\ @_handle_parameters_polymorphism Robot.model Robot.Simulator Robot.self
       (AnActionInstance Robot.move_nothing) Robot.none "is_applicable"
     = Return (Robot.move, [])
  /\ @is_applicable Robot.model Robot.Simulator Robot.self Robot.A
       (AnActionInstance Robot.move_nothing) Robot.none
     = Raise (UPUsageError
         ["The parameters given to the <class 'RobotSimulator'>.get_unsatisfied_conditions method are ";
          "not compatible with the given action's parameters."])
  /\ @get_unsatisfied_conditions Robot.model Robot.Simulator Robot.self Robot.A
       (AnActionInstance Robot.move_nothing) Robot.none true
     = Raise (UPInvalidActionError "the action cannot be grounded").
Proof.
  split; [simpl; discriminate |]. repeat split.
Qed.

Lemma instance_resolved_unchecked_witness :
  @auto_promote Robot.model Robot.RobotProblem
    (map Robot.Node (actual_parameters Robot.move_nothing)) = Return []
  /\ List.length (@nil Robot.fnode)
     <> List.length (@action_parameters Robot.model (action Robot.move_nothing))
  /\ @is_applicable Robot.model Robot.Simulator Robot.self Robot.A
       (AnActionInstance Robot.move_nothing) Robot.none
     = Raise (@incompatible_parameters Robot.model Robot.Simulator
                "get_unsatisfied_conditions").
Proof.
  assert (Hlen : List.length (@nil Robot.fnode)
     <> List.length (@action_parameters Robot.model (action Robot.move_nothing)))
    by (simpl; discriminate).
  split; [reflexivity |]. split; [exact Hlen |].
  pose proof (@instance_resolved_unchecked Robot.model Robot.Simulator
                Robot.self Robot.A Robot.move_nothing true)
    as (_ & _ & _ & _ & _ & H).
  exact (H [] eq_refl (or_introl Hlen)).
Defined.

Lemma constructor_checks_problem_kind_witness :
  @issubclass_Engine Robot.model Robot.Simulator = true
  /\ @__init__ Robot.model Robot.Simulator Robot.strict Robot.TimedRobotProblem
     = ([], Raise (UPUsageError
          ["We cannot establish whether robot is able to handle this problem!"]))
  /\ @__init__ Robot.model Robot.Simulator Robot.lenient Robot.TimedRobotProblem
     = (["We cannot establish whether robot is able to handle this problem!"],
        Return (@Build_Self Robot.model Robot.lenient Robot.TimedRobotProblem))
  /\ @__init__ Robot.model Robot.Simulator Robot.unchecked Robot.TimedRobotProblem
     = ([], Return (@Build_Self Robot.model Robot.unchecked
                      Robot.TimedRobotProblem))
  /\ @__init__ Robot.model Robot.Simulator Robot.strict Robot.RobotProblem
     = ([], Return Robot.self).
Proof.
  split; [reflexivity |]. split; [| split; [| split]].
  - exact (proj1 (@constructor_checks_problem_kind Robot.model Robot.Simulator
             Robot.strict Robot.TimedRobotProblem eq_refl)
             eq_refl eq_refl eq_refl).
  - exact (proj1 (proj2 (@constructor_checks_problem_kind Robot.model
             Robot.Simulator Robot.lenient Robot.TimedRobotProblem eq_refl))
             eq_refl eq_refl eq_refl).
  - exact (proj2 (proj2 (@constructor_checks_problem_kind Robot.model
             Robot.Simulator Robot.unchecked Robot.TimedRobotProblem eq_refl))
             (or_introl eq_refl)).
  - exact (proj2 (proj2 (@constructor_checks_problem_kind Robot.model
             Robot.Simulator Robot.strict Robot.RobotProblem eq_refl))
             (or_intror eq_refl)).
Defined.

Lemma parameters_argument_forms_agree_witness :
  @auto_promote Robot.model Robot.RobotProblem [] = Return []
  /\ @is_applicable Robot.model Robot.Simulator Robot.self Robot.A
       Robot.Scatter Robot.none
     = @is_applicable Robot.model Robot.Simulator Robot.self Robot.A
         Robot.Scatter (Robot.several [])
  /\ @apply Robot.model Robot.Simulator Robot.self Robot.A
       Robot.Move (Robot.one (Robot.Object Robot.B))
     = @apply Robot.model Robot.Simulator Robot.self Robot.A
         Robot.Move (Robot.several [Robot.Object Robot.B]).
Proof.
  split; [reflexivity |].
  pose proof (@parameters_argument_forms_agree Robot.model Robot.Simulator
                Robot.self Robot.A Robot.scatter (Robot.Object Robot.B) true
                eq_refl)
    as (_ & _ & _ & _ & (Hnone & _) & _).
  pose proof (@parameters_argument_forms_agree Robot.model Robot.Simulator
                Robot.self Robot.A Robot.move (Robot.Object Robot.B) true
                eq_refl)
    as (_ & _ & _ & _ & _ & (_ & _ & Hone & _)).
  split; [exact Hnone | exact Hone].
Defined.

(** * Further properties of the resolution and of the default methods *)

Section Resolution.
Context {M : Model} {C : SimulatorClass}.

Implicit Types (self : Self) (s : State) (a : Action) (ai : ActionInstance).
Implicit Types (x : action_or_action_instance) (p : parameters_arg).
Implicit Types (ps : list FNode) (m : string) (et : bool).

(** X1.  An [Action] called with [parameters=None] is resolved to the
    action with the empty tuple when it declares no parameter, and is
    refused with [UPUsageError] by the resolution and by every public
    method when it declares one or more. *)
Theorem action_without_parameters self s a et :
  (action_parameters a = [] ->
   (forall m, _handle_parameters_polymorphism self (AnAction a) NoParameters m
              = Return (a, []))
   /\ get_unsatisfied_conditions self s (AnAction a) NoParameters et
      = _get_unsatisfied_conditions self s a [] et
   /\ apply self s (AnAction a) NoParameters = _apply self s a []
   /\ apply_unsafe self s (AnAction a) NoParameters = _apply_unsafe self s a [])
  /\ (action_parameters a <> [] ->
      (forall m, _handle_parameters_polymorphism self (AnAction a) NoParameters m
                 = Raise (incompatible_parameters m))
      /\ is_applicable self s (AnAction a) NoParameters
         = Raise (incompatible_parameters "is_applicable")
      /\ get_unsatisfied_conditions self s (AnAction a) NoParameters et
         = Raise (incompatible_parameters "get_unsatisfied_conditions")
      /\ apply self s (AnAction a) NoParameters
         = Raise (incompatible_parameters "apply")
      /\ apply_unsafe self s (AnAction a) NoParameters
         = Raise (incompatible_parameters "apply_unsafe")).
Proof.
  unfold is_applicable, get_unsatisfied_conditions, apply, apply_unsafe.
  split; intros Ha.
  - assert (Hh : forall m,
      _handle_parameters_polymorphism self (AnAction a) NoParameters m
      = Return (a, [])).
    { intros m. rewrite handle_action. simpl. unfold rejected.
      now rewrite Ha. }
    rewrite !Hh. repeat split. exact Hh.
  - assert (Hh : forall m,
      _handle_parameters_polymorphism self (AnAction a) NoParameters m
      = Raise (incompatible_parameters m)).
    { intros m. rewrite handle_action. simpl. unfold rejected.
      destruct (action_parameters a); [contradiction | reflexivity]. }
    rewrite !Hh. repeat split. exact Hh.
Qed.

(** X2.  The name of the calling method changes nothing but the text of
    the [UPUsageError]: under another name the resolution returns the same
    pair, or raises the same exception of [auto_promote], or raises the
    [UPUsageError] of the same kind worded for that name. *)
Theorem method_name_only_in_error_text self x p m m' :
  (forall r, _handle_parameters_polymorphism self x p m = Return r ->
             _handle_parameters_polymorphism self x p m' = Return r)
  /\ (forall e, _handle_parameters_polymorphism self x p m = Raise e ->
        (promote_parameters self p = Raise e
         /\ _handle_parameters_polymorphism self x p m' = Raise e)
        \/ (e = ambiguous_grounding m
            /\ _handle_parameters_polymorphism self x p m'
               = Raise (ambiguous_grounding m'))
        \/ (e = incompatible_parameters m
            /\ _handle_parameters_polymorphism self x p m'
               = Raise (incompatible_parameters m'))).
Proof.
  split; [intros r; apply handle_Return_any_method |].
  intros e. destruct x as [a | ai].
  - rewrite !handle_action.
    destruct (promote_parameters self p) as [params | e'] eqn:Hp; simpl.
    + destruct (rejected a params); intros H; [| discriminate].
      injection H as <-. right; right. auto.
    + intros H. injection H as <-. left. auto.
  - destruct p; simpl; intros H; try discriminate;
      injection H as <-; right; left; auto.
Qed.

(** X3.  A pair returned for an [Action] holds that action, the promoted
    parameters, as many as the action declares and each of a type the
    declared one is compatible with; so the implementation of
    [get_unsatisfied_conditions], reached through an [Action], is only
    ever asked about such a tuple. *)
Theorem resolved_action_parameters_fit self s a p et :
  (forall m a' ps,
     _handle_parameters_polymorphism self (AnAction a) p m = Return (a', ps) ->
     a' = a
     /\ promote_parameters self p = Return ps
     /\ List.length ps = List.length (action_parameters a)
     /\ (forall i n ap, nth_error ps i = Some n ->
           nth_error (action_parameters a) i = Some ap ->
           is_compatible (parameter_type ap) (fnode_type n) = true))
  /\ (forall unsat,
        get_unsatisfied_conditions self s (AnAction a) p et = Return unsat ->
        exists ps,
          promote_parameters self p = Return ps
          /\ List.length ps = List.length (action_parameters a)
          /\ (forall i n ap, nth_error ps i = Some n ->
                nth_error (action_parameters a) i = Some ap ->
                is_compatible (parameter_type ap) (fnode_type n) = true)
          /\ _get_unsatisfied_conditions self s a ps et = Return unsat).
Proof.
  assert (Hfit : forall m a' ps,
     _handle_parameters_polymorphism self (AnAction a) p m = Return (a', ps) ->
     a' = a
     /\ promote_parameters self p = Return ps
     /\ List.length ps = List.length (action_parameters a)
     /\ (forall i n ap, nth_error ps i = Some n ->
           nth_error (action_parameters a) i = Some ap ->
           is_compatible (parameter_type ap) (fnode_type n) = true)).
  { intros m a' ps H.
    apply handle_action_Return in H as (params & Hp & Hr & E).
    injection E as -> ->. apply rejected_false in Hr as [Hlen Hall].
    auto. }
  split; [exact Hfit |].
  intros unsat H. unfold get_unsatisfied_conditions in H.
  apply bind_Return_inv in H as ([a' ps] & Hh & H).
  apply Hfit in Hh as (-> & Hp & Hlen & Hall).
  exists ps. auto.
Qed.

(** X4.  Where promotion leaves nodes as they are, the resolution is
    idempotent on what it returns for an [Action]: the returned action
    with the returned tuple is resolved to the same pair, under any method
    name. *)
Theorem resolution_idempotent self a p m m' a' ps :
  auto_promote_keeps_nodes (_problem self) ->
  _handle_parameters_polymorphism self (AnAction a) p m = Return (a', ps) ->
  _handle_parameters_polymorphism self (AnAction a')
    (ParameterSequence (map FNode_as_Expression ps)) m' = Return (a', ps).
Proof.
  intros Hkeep H.
  apply handle_action_Return in H as (params & _ & Hr & E).
  injection E as -> ->. now apply handle_again.
Qed.

(** X5.  Where promotion leaves nodes as they are, the action and the
    actual parameters of an [ActionInstance], passed as an [Action] with
    parameters, are accepted exactly when the instance has one compatible
    value for each declared parameter; they are then returned unchanged,
    and otherwise refused with [UPUsageError]. *)
Theorem action_form_accepts_well_formed_only self ai m :
  auto_promote_keeps_nodes (_problem self) ->
  let resolved :=
    _handle_parameters_polymorphism self (AnAction (action ai))
      (ParameterSequence (map FNode_as_Expression (actual_parameters ai))) m in
  (well_formed_instance ai <->
   resolved = Return (action ai, actual_parameters ai))
  /\ (~ well_formed_instance ai <->
      resolved = Raise (incompatible_parameters m)).
Proof.
  intros Hkeep resolved.
  assert (E : resolved
              = if rejected (action ai) (actual_parameters ai)
                then Raise (incompatible_parameters m)
                else Return (action ai, actual_parameters ai)).
  { unfold resolved. rewrite handle_action. simpl.
    now rewrite (Hkeep (actual_parameters ai)). }
  rewrite E, well_formed_not_rejected.
  destruct (rejected (action ai) (actual_parameters ai)); split; split;
    intros H; try reflexivity; try discriminate; congruence.
Qed.

End Resolution.

Section DefaultMethods.
Context {M : Model} {C : SimulatorClass}.

Implicit Types (self : Self) (s : State) (a : Action) (ai : ActionInstance).
Implicit Types (x : action_or_action_instance) (p : parameters_arg).
Implicit Types (ps : list FNode) (m : string) (et : bool).

Lemma _is_applicable_no_unsatisfied self s a ps :
  _is_applicable self s a ps
  = no_unsatisfied
      (get_unsatisfied_conditions self s (AnAction a)
         (ParameterSequence (map FNode_as_Expression ps)) true).
Proof.
  rewrite _is_applicable_cases. unfold no_unsatisfied, recovered.
  destruct (get_unsatisfied_conditions _ _ _ _ _) as [unsat | []]; reflexivity.
Qed.

Lemma _is_applicable_by_implementation self s a ps :
  auto_promote_keeps_nodes (_problem self) ->
  rejected a ps = false ->
  _is_applicable self s a ps
  = no_unsatisfied (_get_unsatisfied_conditions self s a ps true).
Proof.
  intros Hkeep Hr. rewrite _is_applicable_no_unsatisfied.
  unfold get_unsatisfied_conditions.
  now rewrite (handle_again self _ a ps Hkeep Hr).
Qed.

(** X6.  Where promotion leaves nodes as they are, [is_applicable] is
    decided by the implementation of [get_unsatisfied_conditions] alone,
    asked once with [early_termination=True] about the resolved pair: it
    returns whether the returned list is empty, [False] when the
    implementation raises [UPInvalidActionError], and raises whatever else
    the implementation raises.  This holds for an [Action] whose
    parameters are accepted and for an [ActionInstance] with one
    compatible value for each declared parameter. *)
Theorem is_applicable_by_implementation self s :
  auto_promote_keeps_nodes (_problem self) ->
  (forall a p ps,
     _handle_parameters_polymorphism self (AnAction a) p "is_applicable"
       = Return (a, ps) ->
     is_applicable self s (AnAction a) p
     = no_unsatisfied (_get_unsatisfied_conditions self s a ps true))
  /\ (forall ai,
        well_formed_instance ai ->
        is_applicable self s (AnActionInstance ai) NoParameters
        = no_unsatisfied
            (_get_unsatisfied_conditions self s (action ai)
               (actual_parameters ai) true)).
Proof.
  intros Hkeep. split.
  - intros a p ps Hh. unfold is_applicable. rewrite Hh. simpl.
    apply handle_action_Return in Hh as (params & _ & Hr & E).
    injection E as ->.
    now apply _is_applicable_by_implementation.
  - intros ai Hwf. apply well_formed_not_rejected in Hwf.
    unfold is_applicable. rewrite handle_instance. simpl.
    now apply _is_applicable_by_implementation.
Qed.

(** X7.  [_is_applicable] never raises [UPInvalidActionError], and neither
    does [is_applicable] once its arguments are resolved. *)
Theorem is_applicable_never_raises_UPInvalidActionError self s :
  (forall a ps msg,
     _is_applicable self s a ps <> Raise (UPInvalidActionError msg))
  /\ (forall x p r msg,
        _handle_parameters_polymorphism self x p "is_applicable" = Return r ->
        is_applicable self s x p <> Raise (UPInvalidActionError msg)).
Proof.
  assert (H : forall a ps msg,
            _is_applicable self s a ps <> Raise (UPInvalidActionError msg)).
  { intros a ps msg. rewrite _is_applicable_cases.
    destruct (get_unsatisfied_conditions _ _ _ _ _) as [unsat | []];
      discriminate. }
  split; [exact H |].
  intros x p [a ps] msg Hh. unfold is_applicable. rewrite Hh. simpl.
  apply H.
Qed.

(** X8.  [is_applicable] returns [True] only for parameters that fit the
    action, in either calling convention: the tuple it resolved, promoted
    once more, has as many values as the action declares, each of a
    compatible type, and the implementation found no unsatisfied condition
    for it. *)
Theorem is_applicable_true_only_if_parameters_fit self s x p :
  is_applicable self s x p = Return true ->
  exists a ps ps',
    _handle_parameters_polymorphism self x p "is_applicable" = Return (a, ps)
    /\ auto_promote (_problem self) (map FNode_as_Expression ps) = Return ps'
    /\ List.length ps' = List.length (action_parameters a)
    /\ (forall i n ap, nth_error ps' i = Some n ->
          nth_error (action_parameters a) i = Some ap ->
          is_compatible (parameter_type ap) (fnode_type n) = true)
    /\ _get_unsatisfied_conditions self s a ps' true = Return [].
Proof.
  intros H. apply is_applicable_true in H as (a & ps & Hh & H).
  unfold get_unsatisfied_conditions in H.
  apply bind_Return_inv in H as ([a' ps'] & Hn & H).
  apply handle_action_Return in Hn as (params & Hp & Hr & E).
  injection E as -> ->. apply rejected_false in Hr as [Hlen Hall].
  exists a, ps, params. auto.
Qed.

(** X9.  The constructor of a class that does not derive from [Engine]
    fails with [AssertionError] whatever the flags and the problem; the
    constructor never emits a warning when it raises, and emits at most
    one; the object it returns holds the engine attributes and the problem
    it was given; and it raises [UPUsageError] only when the checks are
    not skipped, the kind is not supported and
    [error_on_failed_checks] is set. *)
Theorem constructor_outcomes e problem :
  (issubclass_Engine = false ->
   __init__ e problem
   = ([], Raise (AssertionError
        "SequentialSimulatorMixin does not implement the up.engines.Engine class")))
  /\ (forall ex, snd (__init__ e problem) = Raise ex ->
        fst (__init__ e problem) = [])
  /\ (List.length (fst (__init__ e problem)) <= 1)%nat
  /\ (forall self, snd (__init__ e problem) = Return self ->
        engine self = e /\ _problem self = problem)
  /\ (forall args, snd (__init__ e problem) = Raise (UPUsageError args) ->
        issubclass_Engine = true /\ skip_checks e = false
        /\ supports (problem_kind problem) = false
        /\ error_on_failed_checks e = true
        /\ args = [cannot_establish e]).
Proof.
  unfold __init__.
  destruct issubclass_Engine, (skip_checks e),
    (supports (problem_kind problem)), (error_on_failed_checks e); simpl;
    repeat apply conj; intros; try discriminate; try reflexivity; auto;
    try (match goal with H : Return _ = Return _ |- _ =>
           injection H as <-; auto end);
    try (match goal with H : Raise _ = Raise _ |- _ =>
           injection H as <-; auto end).
Qed.

(** X10.  [is_goal] has no handler: it raises exactly the exceptions that
    [get_unsatisfied_goals] raises with [early_termination=True],
    [UPInvalidActionError] included, and it returns [False] exactly when
    that call returns a list that is not empty. *)
Theorem is_goal_propagates_every_exception self s :
  (forall e, is_goal self s = Raise e <->
             get_unsatisfied_goals self s true = Raise e)
  /\ (is_goal self s = Return false <->
      exists goal goals,
        get_unsatisfied_goals self s true = Return (goal :: goals)).
Proof.
  unfold is_goal, _is_goal. split.
  - intros e.
    destruct (get_unsatisfied_goals self s true) as [unsat | e']; simpl;
      split; intros H; try discriminate H; now injection H as ->.
  - destruct (get_unsatisfied_goals self s true) as [[| goal goals] | e'];
      simpl; split; intros H.
    + discriminate H.
    + destruct H as (g & gs & H). discriminate H.
    + exists goal, goals. reflexivity.
    + reflexivity.
    + discriminate H.
    + destruct H as (g & gs & H). discriminate H.
Qed.

End DefaultMethods.

Section BareMixin.
Context {M : Model}.

(** X11.  In the mixin on its own, where no method is overridden, every
    public method raises [NotImplementedError] once its arguments are
    resolved; the handler of [_is_applicable] does not turn it into
    [False], and [is_applicable] never returns [True]. *)
Theorem mixin_alone_is_not_implemented
    (self : Self) (s : State) (et : bool) :
  @get_initial_state M SequentialSimulatorMixin self = Raise NotImplementedError
  /\ @get_applicable_actions M SequentialSimulatorMixin self s
     = Raise NotImplementedError
  /\ @get_unsatisfied_goals M SequentialSimulatorMixin self s et
     = Raise NotImplementedError
  /\ @is_goal M SequentialSimulatorMixin self s = Raise NotImplementedError
  /\ (forall x p,
        (forall r,
           @_handle_parameters_polymorphism M SequentialSimulatorMixin
             self x p "get_unsatisfied_conditions" = Return r ->
           @get_unsatisfied_conditions M SequentialSimulatorMixin self s x p et
           = Raise NotImplementedError)
        /\ (forall r,
              @_handle_parameters_polymorphism M SequentialSimulatorMixin
                self x p "apply" = Return r ->
              @apply M SequentialSimulatorMixin self s x p
              = Raise NotImplementedError)
        /\ (forall r,
              @_handle_parameters_polymorphism M SequentialSimulatorMixin
                self x p "apply_unsafe" = Return r ->
              @apply_unsafe M SequentialSimulatorMixin self s x p
              = Raise NotImplementedError)
        /\ @is_applicable M SequentialSimulatorMixin self s x p <> Return true)
  /\ (forall a ps r,
        @_handle_parameters_polymorphism M SequentialSimulatorMixin self
          (AnAction a) (ParameterSequence (map FNode_as_Expression ps))
          "get_unsatisfied_conditions" = Return r ->
        @_is_applicable M SequentialSimulatorMixin self s a ps
        = Raise NotImplementedError).
Proof.
  repeat apply conj; try reflexivity.
  - intros x p. repeat apply conj.
    + intros [a ps] Hh. unfold get_unsatisfied_conditions. now rewrite Hh.
    + intros [a ps] Hh. unfold apply. now rewrite Hh.
    + intros [a ps] Hh. unfold apply_unsafe. now rewrite Hh.
    + intros H. apply is_applicable_true in H as (a & ps & _ & H).
      unfold get_unsatisfied_conditions in H.
      apply bind_Return_inv in H as ([a' ps'] & _ & H). discriminate H.
  - intros a ps [a' ps'] Hh. rewrite _is_applicable_cases.
    unfold get_unsatisfied_conditions. now rewrite Hh.
Qed.

End BareMixin.

Section PromotionErrors.
Context {M : Model} {C : SimulatorClass}.

(** X12.  An exception that [auto_promote] raises on the parameters of an
    [Action] leaves the resolution and each public method unchanged;
    [is_applicable] raises it too, whatever its class, because its handler
    covers only the check of the conditions. *)
Theorem auto_promote_exception_surfaces
    (self : Self) (s : State) (a : Action) (p : parameters_arg) (et : bool)
    (e : exn) :
  promote_parameters self p = Raise e ->
  (forall m, _handle_parameters_polymorphism self (AnAction a) p m = Raise e)
  /\ is_applicable self s (AnAction a) p = Raise e
  /\ get_unsatisfied_conditions self s (AnAction a) p et = Raise e
  /\ apply self s (AnAction a) p = Raise e
  /\ apply_unsafe self s (AnAction a) p = Raise e.
Proof.
  intros Hp.
  assert (Hh : forall m,
            _handle_parameters_polymorphism self (AnAction a) p m = Raise e).
  { intros m. rewrite handle_action, Hp. reflexivity. }
  unfold is_applicable, get_unsatisfied_conditions, apply, apply_unsafe.
  rewrite !Hh. repeat split. exact Hh.
Qed.

End PromotionErrors.

(** * The further properties on the robot engines *)

Lemma action_without_parameters_witness :
  (@action_parameters Robot.model Robot.scatter = []
   /\ @get_unsatisfied_conditions Robot.model Robot.Simulator Robot.self
        Robot.A Robot.Scatter Robot.none true = Return [])
  /\ (@action_parameters Robot.model Robot.move <> []
      /\ @apply Robot.model Robot.Simulator Robot.self Robot.A
           Robot.Move Robot.none
         = Raise (@incompatible_parameters Robot.model Robot.Simulator "apply")).
Proof.
  assert (Hmove : @action_parameters Robot.model Robot.move <> [])
    by (simpl; discriminate).
  pose proof (@action_without_parameters Robot.model Robot.Simulator
                Robot.self Robot.A Robot.scatter true) as [Hnone _].
  pose proof (@action_without_parameters Robot.model Robot.Simulator
                Robot.self Robot.A Robot.move true) as [_ Hsome].
  split; split; [reflexivity | | exact Hmove |].
  - exact (proj1 (proj2 (Hnone eq_refl))).
  - exact (proj1 (proj2 (proj2 (proj2 (Hsome Hmove))))).
Defined.

Lemma method_name_only_in_error_text_witness :
  (@_handle_parameters_polymorphism Robot.model Robot.Simulator Robot.self
     Robot.Move (Robot.one (Robot.Object Robot.B)) "apply"
   = Return (Robot.move, [Robot.ObjectExp Robot.B])
   /\ @_handle_parameters_polymorphism Robot.model Robot.Simulator Robot.self
        Robot.Move (Robot.one (Robot.Object Robot.B)) "is_applicable"
      = Return (Robot.move, [Robot.ObjectExp Robot.B]))
  /\ (@_handle_parameters_polymorphism Robot.model Robot.Simulator Robot.self
        Robot.Move Robot.none "apply"
      = Raise (@incompatible_parameters Robot.model Robot.Simulator "apply")
      /\ @_handle_parameters_polymorphism Robot.model Robot.Simulator Robot.self
           Robot.Move Robot.none "is_applicable"
         = Raise (@incompatible_parameters Robot.model Robot.Simulator
                    "is_applicable")).
Proof.
  split; (split; [reflexivity |]).
  - exact (proj1 (@method_name_only_in_error_text Robot.model Robot.Simulator
             Robot.self Robot.Move (Robot.one (Robot.Object Robot.B))
             "apply" "is_applicable")
             (Robot.move, [Robot.ObjectExp Robot.B]) eq_refl).
  - destruct (proj2 (@method_name_only_in_error_text Robot.model
                Robot.Simulator Robot.self Robot.Move Robot.none
                "apply" "is_applicable")
                (@incompatible_parameters Robot.model Robot.Simulator "apply")
                eq_refl)
      as [[Hp _] | [[E _] | [_ H]]].
    + discriminate Hp.
    + discriminate E.
    + exact H.
Defined.

Lemma resolved_action_parameters_fit_witness :
  @get_unsatisfied_conditions Robot.model Robot.Simulator Robot.self Robot.A
    Robot.Move (Robot.one (Robot.Object Robot.A)) false
  = Return [Robot.Not (Robot.AtRobotIs Robot.A)]
  /\ exists ps : list Robot.fnode,
       @promote_parameters Robot.model Robot.self
         (Robot.one (Robot.Object Robot.A)) = Return ps
       /\ List.length ps = 1.
Proof.
  split; [reflexivity |].
  destruct (proj2 (@resolved_action_parameters_fit Robot.model Robot.Simulator
              Robot.self Robot.A Robot.move (Robot.one (Robot.Object Robot.A))
              false) [Robot.Not (Robot.AtRobotIs Robot.A)] eq_refl)
    as (ps & Hp & Hlen & _ & _).
  exists ps. split; [exact Hp | exact Hlen].
Defined.

Lemma resolution_idempotent_witness :
  @auto_promote_keeps_nodes Robot.model (_problem Robot.self)
  /\ @_handle_parameters_polymorphism Robot.model Robot.Simulator Robot.self
       Robot.Move (Robot.one (Robot.Object Robot.B)) "apply"
     = Return (Robot.move, [Robot.ObjectExp Robot.B])
  /\ @_handle_parameters_polymorphism Robot.model Robot.Simulator Robot.self
       Robot.Move (Robot.several [Robot.Node (Robot.ObjectExp Robot.B)])
       "get_unsatisfied_conditions"
     = Return (Robot.move, [Robot.ObjectExp Robot.B]).
Proof.
  assert (Hkeep : @auto_promote_keeps_nodes Robot.model (_problem Robot.self)).
  { intros nodes. simpl. f_equal.
    induction nodes as [| n nodes IH]; simpl; [reflexivity | now rewrite IH]. }
  split; [exact Hkeep |]. split; [reflexivity |].
  exact (@resolution_idempotent Robot.model Robot.Simulator Robot.self
           Robot.move (Robot.one (Robot.Object Robot.B)) "apply"
           "get_unsatisfied_conditions" Robot.move [Robot.ObjectExp Robot.B]
           Hkeep eq_refl).
Defined.

Lemma action_form_accepts_well_formed_only_witness :
  @auto_promote_keeps_nodes Robot.model (_problem Robot.self)
  /\ (~ @well_formed_instance Robot.model Robot.move_nothing <->
      @_handle_parameters_polymorphism Robot.model Robot.Simulator Robot.self
        (@AnAction Robot.model Robot.move) (Robot.several []) "apply"
      = Raise (@incompatible_parameters Robot.model Robot.Simulator "apply")).
Proof.
  assert (Hkeep : @auto_promote_keeps_nodes Robot.model (_problem Robot.self)).
  { intros nodes. simpl. f_equal.
    induction nodes as [| n nodes IH]; simpl; [reflexivity | now rewrite IH]. }
  split; [exact Hkeep |].
  exact (proj2 (@action_form_accepts_well_formed_only Robot.model
           Robot.Simulator Robot.self Robot.move_nothing "apply" Hkeep)).
Defined.

Lemma is_applicable_by_implementation_witness :
  @auto_promote_keeps_nodes Robot.model (_problem Robot.self)
  /\ @is_applicable Robot.model Robot.Simulator Robot.self Robot.A
       Robot.Move (Robot.one (Robot.Object Robot.A)) = Return false
  /\ @is_applicable Robot.model Robot.Simulator Robot.self Robot.A
       (AnActionInstance Robot.move_B) Robot.none = Return true.
Proof.
  assert (Hkeep : @auto_promote_keeps_nodes Robot.model (_problem Robot.self)).
  { intros nodes. simpl. f_equal.
    induction nodes as [| n nodes IH]; simpl; [reflexivity | now rewrite IH]. }
  assert (Hwf : @well_formed_instance Robot.model Robot.move_B).
  { split; [reflexivity |].
    intros [| [| i]] n ap Hn Hap; simpl in Hn, Hap; try discriminate.
    injection Hn as <-. injection Hap as <-. reflexivity. }
  pose proof (@is_applicable_by_implementation Robot.model Robot.Simulator
                Robot.self Robot.A Hkeep) as [Haction Hinstance].
  split; [exact Hkeep |]. split.
  - exact (Haction Robot.move (Robot.one (Robot.Object Robot.A))
             [Robot.ObjectExp Robot.A] eq_refl).
  - exact (Hinstance Robot.move_B Hwf).
Defined.

Lemma is_applicable_never_raises_UPInvalidActionError_witness :
  @_handle_parameters_polymorphism Robot.model Robot.Simulator Robot.self
    Robot.Move (Robot.one (Robot.Object Robot.Limbo)) "is_applicable"
  = Return (Robot.move, [Robot.ObjectExp Robot.Limbo])
  /\ @_get_unsatisfied_conditions Robot.model Robot.Simulator Robot.self
       Robot.A Robot.move [Robot.ObjectExp Robot.Limbo] true
     = Raise Robot.outside_domain
  /\ @is_applicable Robot.model Robot.Simulator Robot.self Robot.A
       Robot.Move (Robot.one (Robot.Object Robot.Limbo))
     <> Raise Robot.outside_domain.
Proof.
  split; [reflexivity |]. split; [reflexivity |].
  exact (proj2 (@is_applicable_never_raises_UPInvalidActionError Robot.model
           Robot.Simulator Robot.self Robot.A)
           Robot.Move (Robot.one (Robot.Object Robot.Limbo))
           (Robot.move, [Robot.ObjectExp Robot.Limbo])
           "Limbo is outside the domain of at(robot)" eq_refl).
Defined.

Lemma is_applicable_true_only_if_parameters_fit_witness :
  @is_applicable Robot.model Robot.Simulator Robot.self Robot.A
    (AnActionInstance Robot.move_B) Robot.none = Return true
  /\ exists (a : Robot.act) (ps ps' : list Robot.fnode),
       @_handle_parameters_polymorphism Robot.model Robot.Simulator Robot.self
         (AnActionInstance Robot.move_B) Robot.none "is_applicable"
       = Return (a, ps)
       /\ List.length ps' = List.length (@action_parameters Robot.model a).
Proof.
  split; [reflexivity |].
  destruct (@is_applicable_true_only_if_parameters_fit Robot.model
              Robot.Simulator Robot.self Robot.A
              (AnActionInstance Robot.move_B) Robot.none eq_refl)
    as (a & ps & ps' & Hh & _ & Hlen & _).
  exists a, ps, ps'. split; [exact Hh | exact Hlen].
Defined.

Lemma constructor_outcomes_witness :
  (@issubclass_Engine Robot.model SequentialSimulatorMixin = false
   /\ @__init__ Robot.model SequentialSimulatorMixin Robot.unchecked
        Robot.RobotProblem
      = ([], Raise (AssertionError
           "SequentialSimulatorMixin does not implement the up.engines.Engine class")))
  /\ (snd (@__init__ Robot.model Robot.Simulator Robot.lenient
             Robot.TimedRobotProblem)
      = Return (@Build_Self Robot.model Robot.lenient Robot.TimedRobotProblem)
      /\ @_problem Robot.model
           (@Build_Self Robot.model Robot.lenient Robot.TimedRobotProblem)
         = Robot.TimedRobotProblem)
  /\ (snd (@__init__ Robot.model Robot.Simulator Robot.strict
             Robot.TimedRobotProblem)
      = Raise (UPUsageError [cannot_establish Robot.strict])
      /\ fst (@__init__ Robot.model Robot.Simulator Robot.strict
                Robot.TimedRobotProblem) = []
      /\ @supports Robot.model Robot.Simulator
           (@problem_kind Robot.model Robot.TimedRobotProblem) = false).
Proof.
  pose proof (@constructor_outcomes Robot.model SequentialSimulatorMixin
                Robot.unchecked Robot.RobotProblem) as (Hassert & _).
  pose proof (@constructor_outcomes Robot.model Robot.Simulator
                Robot.lenient Robot.TimedRobotProblem)
    as (_ & _ & _ & Hself & _).
  pose proof (@constructor_outcomes Robot.model Robot.Simulator
                Robot.strict Robot.TimedRobotProblem)
    as (_ & Hquiet & _ & _ & Husage).
  split; [| split].
  - split; [reflexivity | exact (Hassert eq_refl)].
  - split; [reflexivity | exact (proj2 (Hself _ eq_refl))].
  - split; [reflexivity | split].
    + exact (Hquiet _ eq_refl).
    + exact (proj1 (proj2 (proj2 (Husage _ eq_refl)))).
Defined.

Lemma mixin_alone_is_not_implemented_witness :
  @_handle_parameters_polymorphism Robot.model SequentialSimulatorMixin
    Robot.self Robot.Scatter Robot.none "apply" = Return (Robot.scatter, [])
  /\ @apply Robot.model SequentialSimulatorMixin Robot.self Robot.A
       Robot.Scatter Robot.none = Raise NotImplementedError
  /\ @_is_applicable Robot.model SequentialSimulatorMixin Robot.self Robot.A
       Robot.scatter [] = Raise NotImplementedError.
Proof.
  pose proof (@mixin_alone_is_not_implemented Robot.model Robot.self Robot.A
                true) as (_ & _ & _ & _ & Hpublic & Hinner).
  split; [reflexivity |]. split.
  - exact (proj1 (proj2 (Hpublic Robot.Scatter Robot.none))
             (Robot.scatter, []) eq_refl).
  - exact (Hinner Robot.scatter [] (Robot.scatter, []) eq_refl).
Defined.

Lemma auto_promote_exception_surfaces_witness :
  @promote_parameters StrictRobot.model StrictRobot.self
    (@ParameterSequence StrictRobot.model [Robot.PyBool true])
  = Raise (OtherException "UPTypeError")
  /\ @is_applicable StrictRobot.model StrictRobot.Simulator StrictRobot.self
       Robot.A (@AnAction StrictRobot.model Robot.move)
       (@ParameterSequence StrictRobot.model [Robot.PyBool true])
     = Raise (OtherException "UPTypeError").
Proof.
  split; [reflexivity |].
  exact (proj1 (proj2 (@auto_promote_exception_surfaces StrictRobot.model
           StrictRobot.Simulator StrictRobot.self Robot.A Robot.move
           (@ParameterSequence StrictRobot.model [Robot.PyBool true]) true
           (OtherException "UPTypeError") eq_refl))).
Defined.
